(** * usbCamera.py: the camera session of [USBCamera], embedded and verified

    The class [USBCamera] wraps one [cv2.VideoCapture] handle.  Its methods
    are embedded as computations of a state-and-exception monad over the
    object's fields ([Session]) and the part of the outside world the
    methods touch ([World]): the files written, the calls made to the
    capture, display and logging libraries.  What those libraries answer
    (does the device open, does a frame arrive, which key is down, what
    time is it) is not decided by the program; it is read from an
    environment [Env] that every theorem quantifies over. *)

From Stdlib Require Import ZArith QArith Qabs Qround List String Ascii Bool Lia Lqa.
From Stdlib Require Import DecimalString DecimalZ.
Import ListNotations.
Local Open Scope string_scope.
Local Open Scope Z_scope.

(** ** Python values and text *)

Module Py.

(** The exceptions the methods can meet.  [SystemExit] is what
    [sys.exit] raises; it derives from [BaseException], so a handler
    written [except Exception] lets it through. *)
Inductive exn : Type :=
| AttributeError (msg : string)
| TypeError (msg : string)
| OverflowError (msg : string)
| CvError (msg : string)
| SystemExit (code : Z).

Definition is_Exception (e : exn) : bool :=
  match e with
  | SystemExit _ => false
  | _ => true
  end.

(** [str(e)], as an f-string renders a caught exception. *)
Definition exn_str (e : exn) : string :=
  match e with
  | AttributeError m | TypeError m | OverflowError m | CvError m => m
  | SystemExit c => NilEmpty.string_of_int (Z.to_int c)
  end.

(** [str(n)] for an integer. *)
Definition str_int (n : Z) : string := NilEmpty.string_of_int (Z.to_int n).

(** [str((a, b))] for a pair of integers. *)
Definition str_pair (p : Z * Z) : string :=
  "(" ++ str_int (fst p) ++ ", " ++ str_int (snd p) ++ ")".

(** The format [{n:02d}], and the two-digit fields of [strftime]. *)
Definition fmt_02d (n : Z) : string :=
  if (0 <=? n) && (n <? 10) then "0" ++ str_int n else str_int n.

(** [int(x)] on a number: truncation toward zero. *)
Definition int (x : Q) : Z := Z.quot (Qnum x) (Zpos (Qden x)).

(** [a > b] on numbers, which Python compares exactly. *)
Definition gt (a b : Q) : bool := negb (Qle_bool a b).

(** *** Floats

    A Python [float] is a binary64 number.  The finite ones are rationals,
    and a rational stands for a float here; the infinities and NaN are not
    modelled, and the exponent of a float is not bounded above in
    [double].  What is modelled is the rounding: an operation on floats
    gives the float nearest to its exact result, ties going to the even
    significand. *)

(** [2^e], for any integer [e]. *)
Definition pow2 (e : Z) : Q :=
  if 0 <=? e then inject_Z (2 ^ e) else (1 # Z.to_pos (2 ^ (- e)))%Q.

(** The place of the leading bit of [q], which is not zero: the [e] with
    [2^e <= |q| < 2^(e+1)]. *)
Definition ilog2 (q : Q) : Z :=
  let e := Z.log2 (Z.abs (Qnum q)) - Z.log2 (Zpos (Qden q)) in
  if Qle_bool (pow2 e) (Qabs q) then e else e - 1.

(** The integer nearest to [q], the even one of two that are as near. *)
Definition round_half_even (q : Q) : Z :=
  let f := Qfloor q in
  match Qcompare (q - inject_Z f)%Q (1 # 2)%Q with
  | Lt => f
  | Gt => f + 1
  | Eq => if Z.even f then f else f + 1
  end.

(** The float nearest to [q]: a significand of 53 bits, and no exponent
    under that of the smallest subnormal, [-1074]. *)
Definition double (q : Q) : Q :=
  if Qeq_bool q 0 then 0%Q
  else
    let e := Z.max (ilog2 q - 52) (-1074) in
    Qred (inject_Z (round_half_even (q / pow2 e)%Q) * pow2 e)%Q.

(** [a - b] where a float is involved: each operand as a float, and the
    float nearest to the difference. *)
Definition fsub (a b : Q) : Q := double (double a - double b)%Q.

(** [float(n)] for an integer, as the conversion of an argument does it:
    the nearest float, and [OverflowError] when that is beyond the largest
    float. *)
Definition float (n : Z) : Q := double (inject_Z n).

Definition float_of_int (n : Z) : option Q :=
  if Qle_bool (pow2 1024) (Qabs (float n)) then None else Some (float n).

(** [s.startswith("/")] and [s.endswith("/")]. *)
Definition startswith_sep (s : string) : bool :=
  match s with
  | String c _ => Ascii.eqb c "/"
  | EmptyString => false
  end.

Fixpoint endswith_sep (s : string) : bool :=
  match s with
  | EmptyString => false
  | String c EmptyString => Ascii.eqb c "/"
  | String _ s' => endswith_sep s'
  end.

(** [os.path.join(a, b)] of [posixpath], for two components. *)
Definition path_join (a b : string) : string :=
  if startswith_sep b then b
  else if (String.length a =? 0)%nat || endswith_sep a then a ++ b
  else a ++ "/" ++ b.

End Py.

(** ** The calendar behind [time.strftime("%Y%m%d_%H%M%S")]

    [strftime] breaks the local wall-clock reading, a count of whole
    seconds, into civil fields and prints them.  The day count is turned
    into a date by the usual era-based computation on the proleptic
    Gregorian calendar (an era is 400 years, 146097 days, starting on a
    1st of March). *)

Module Calendar.

Record date : Type := mkDate { year : Z; month : Z; day : Z }.

(** Day of era ([0 <= doe < 146097]) to year of era, month index
    counted from March, and day of month. *)
Definition yoe_of (doe : Z) : Z :=
  (doe - doe / 1460 + doe / 36524 - doe / 146096) / 365.

Definition doy_of (doe : Z) : Z :=
  let yoe := yoe_of doe in
  doe - (365 * yoe + yoe / 4 - yoe / 100).

Definition mp_of (doe : Z) : Z := (5 * doy_of doe + 2) / 153.

Definition dom_of (doe : Z) : Z :=
  doy_of doe - (153 * mp_of doe + 2) / 5 + 1.

Definition civil_from_days (z : Z) : date :=
  let z := z + 719468 in
  let era := z / 146097 in
  let doe := z mod 146097 in
  let mp := mp_of doe in
  let m := if mp <? 10 then mp + 3 else mp - 9 in
  let y := yoe_of doe + era * 400 in
  {| year := if m <=? 2 then y + 1 else y; month := m; day := dom_of doe |}.

Record clock : Type := mkClock { hour : Z; minute : Z; second : Z }.

Definition clock_from_seconds (sod : Z) : clock :=
  {| hour := sod / 3600; minute := (sod mod 3600) / 60; second := sod mod 60 |}.

(** [strftime("%Y%m%d_%H%M%S")] of the wall-clock reading [t]. *)
Definition strftime (t : Z) : string :=
  let d := civil_from_days (t / 86400) in
  let c := clock_from_seconds (t mod 86400) in
  Py.str_int (year d) ++ Py.fmt_02d (month d) ++ Py.fmt_02d (day d) ++ "_"
    ++ Py.fmt_02d (hour c) ++ Py.fmt_02d (minute c) ++ Py.fmt_02d (second c).

End Calendar.

(** ** The capture library: [cv2.VideoCapture] *)

Module Cv.

(** The properties the class sets or reads. *)
Inductive CapProp : Type :=
| CAP_PROP_FRAME_WIDTH
| CAP_PROP_FRAME_HEIGHT
| CAP_PROP_FPS
| CAP_PROP_AUTOFOCUS.

(** The values in force on an opened device. *)
Record Params : Type := mkParams {
  p_width : Q;
  p_height : Q;
  p_fps : Q;
  p_autofocus : Q
}.

(** A [VideoCapture] object: whether it holds an opened device, and the
    device's parameters. *)
Record VideoCapture : Type := mkCap {
  cap_opened : bool;
  cap_params : Params
}.

Definition no_params : Params := mkParams 0 0 0 0.

Definition closed_capture : VideoCapture := mkCap false no_params.

Definition isOpened (c : VideoCapture) : bool := cap_opened c.

(** [c.get(prop)]: the value in force; on an object that holds no device,
    what the library answers then, [closed], which differs between its
    versions. *)
Definition get (closed : CapProp -> Q) (c : VideoCapture) (p : CapProp) : Q :=
  if cap_opened c then
    match p with
    | CAP_PROP_FRAME_WIDTH => p_width (cap_params c)
    | CAP_PROP_FRAME_HEIGHT => p_height (cap_params c)
    | CAP_PROP_FPS => p_fps (cap_params c)
    | CAP_PROP_AUTOFOCUS => p_autofocus (cap_params c)
    end
  else closed p.

(** [c.release()]: the device is let go; the object stays. *)
Definition release (c : VideoCapture) : VideoCapture :=
  mkCap false (cap_params c).

(** What an attempt to acquire a device can answer: the device, opened
    with its own default parameters; no device; or a driver error. *)
Inductive AcqResult : Type :=
| AcqOpened (p : Params)
| AcqClosed
| AcqRaise (msg : string).

(** A text drawn on a frame by [cv2.putText]: the string and its
    origin (font, scale and colour are not kept). *)
Record Overlay : Type := mkOverlay { ov_text : string; ov_org : Z * Z }.

(** A frame: the pixel buffer as the device gave it, named by a number,
    and the texts drawn on it since, oldest first. *)
Record Frame : Type := mkFrame { fr_pixels : nat; fr_overlays : list Overlay }.

Definition putText (f : Frame) (text : string) (org : Z * Z) : Frame :=
  mkFrame (fr_pixels f) (fr_overlays f ++ [mkOverlay text org]).

Definition IMWRITE_JPEG_QUALITY_default : Z := 95.

(** [ord('q')]. *)
Definition ord_q : Z := 113.

End Cv.

Import Cv.

(** ** The environment, the world and the object *)

(** What the outside answers.  Each stream is indexed by how many
    answers of its kind were already consumed. *)
Record Env : Type := mkEnv {
  (** the n-th attempt to acquire the device *)
  env_acquire : nat -> AcqResult;
  (** the device's reaction to a [set]: the parameters in force
      afterwards, and the boolean [set] returns *)
  env_negotiate : CapProp -> Q -> Params -> Params * bool;
  (** what [get] answers on an object that holds no device *)
  env_get_closed : CapProp -> Q;
  (** the n-th frame asked of an opened device: a pixel buffer, or
      nothing when the read fails *)
  env_read : nat -> option nat;
  (** the n-th key poll: a key code, -1 when no key is down *)
  env_key : nat -> Z;
  (** the n-th reading of the clock, in seconds since the epoch *)
  env_time : nat -> Q;
  (** the offset of local time in force at a second since the epoch, in
      seconds: it changes with daylight saving time *)
  env_tz : Z -> Z;
  (** whether a file can be written at a path *)
  env_writable : string -> bool;
  (** the text of the error [imwrite] raises when it is given no image *)
  env_empty_image : string
}.

Inductive Level : Type := INFO | WARNING | ERROR.

(** The calls that leave the program, in the order they are made. *)
Inductive Event : Type :=
| EvVideoCapture (index : Z)            (* cv2.VideoCapture(index) *)
| EvOpen (index : Z)                    (* camera.open(index) *)
| EvSleep (seconds : Z)                 (* time.sleep *)
| EvSet (p : CapProp) (v : Q)           (* camera.set *)
| EvRead (ok : bool)                    (* camera.read *)
| EvRelease                             (* camera.release *)
| EvLog (l : Level) (msg : string)      (* logging.info / warning / error *)
| EvPrint (msg : string)                (* print *)
| EvImshow (win : string) (f : Frame)   (* cv2.imshow *)
| EvWaitKey (delay : Z) (key : Z)       (* cv2.waitKey *)
| EvDestroyAllWindows                   (* cv2.destroyAllWindows *)
| EvImwrite (path : string) (f : Frame) (quality : option Z) (ok : bool).

Record File : Type := mkFile { file_frame : Frame; file_quality : Z }.

Record World : Type := mkWorld {
  acquired : nat;                 (* acquisition attempts so far *)
  frames_read : nat;              (* frames asked of an opened device so far *)
  polled : nat;                   (* key polls so far *)
  ticks : nat;                    (* clock readings so far *)
  files : list (string * File);   (* the files on disk *)
  trace : list Event              (* the calls made, newest first *)
}.

(** The fields of a [USBCamera] object. *)
Record Session : Type := mkSession {
  device_index : Z;
  frame_resolution : Z * Z;
  frame_rate : Z;
  camera : option VideoCapture
}.

Record St : Type := mkSt { self : Session; world : World }.

(** ** The monad of the methods *)

Inductive result (A : Type) : Type :=
| Ret (a : A)
| Raise (e : Py.exn)
| OutOfFuel.

Arguments Ret {A} a.
Arguments Raise {A} e.
Arguments OutOfFuel {A}.

Definition M (A : Type) : Type := St -> result A * St.

Definition ret {A} (a : A) : M A := fun st => (Ret a, st).

Definition raise {A} (e : Py.exn) : M A := fun st => (Raise e, st).

Definition bind {A B} (m : M A) (k : A -> M B) : M B :=
  fun st =>
    match m st with
    | (Ret a, st') => k a st'
    | (Raise e, st') => (Raise e, st')
    | (OutOfFuel, st') => (OutOfFuel, st')
    end.

Declare Scope cam_scope.
Delimit Scope cam_scope with cam.
Notation "x <- m ;; k" := (bind m (fun x => k))
  (at level 61, m at next level, right associativity) : cam_scope.
Notation "' p <- m ;; k" := (bind m (fun x => let p := x in k))
  (at level 61, p pattern, m at next level, right associativity) : cam_scope.
Notation "m ;; k" := (bind m (fun _ => k))
  (at level 61, right associativity) : cam_scope.
Local Open Scope cam_scope.

(** [try: body  except Exception as e: handler(e)]. *)
Definition try_except {A} (body : M A) (handler : Py.exn -> M A) : M A :=
  fun st =>
    match body st with
    | (Raise e, st') => if Py.is_Exception e then handler e st' else (Raise e, st')
    | r => r
    end.

Definition out_of_fuel {A} : M A := fun st => (OutOfFuel, st).

Definition get_self : M Session := fun st => (Ret (self st), st).

Definition set_camera (c : option VideoCapture) : M unit :=
  fun st =>
    let s := self st in
    (Ret tt, mkSt (mkSession (device_index s) (frame_resolution s) (frame_rate s) c)
                  (world st)).

Definition get_world : M World := fun st => (Ret (world st), st).

Definition emit (e : Event) : M unit :=
  fun st =>
    let w := world st in
    (Ret tt, mkSt (self st)
       (mkWorld (acquired w) (frames_read w) (polled w) (ticks w) (files w) (e :: trace w))).

Definition log (l : Level) (msg : string) : M unit := emit (EvLog l msg).

(** ** The library calls, as computations *)

Section Methods.

Variable env : Env.

Definition with_world (f : World -> World) : M unit :=
  fun st => (Ret tt, mkSt (self st) (f (world st))).

Definition tick_acquired (w : World) : World :=
  mkWorld (S (acquired w)) (frames_read w) (polled w) (ticks w) (files w) (trace w).

Definition tick_frames_read (w : World) : World :=
  mkWorld (acquired w) (S (frames_read w)) (polled w) (ticks w) (files w) (trace w).

Definition tick_polled (w : World) : World :=
  mkWorld (acquired w) (frames_read w) (S (polled w)) (ticks w) (files w) (trace w).

Definition tick_ticks (w : World) : World :=
  mkWorld (acquired w) (frames_read w) (polled w) (S (ticks w)) (files w) (trace w).

Definition fs_write (path : string) (f : File) (fs : list (string * File))
  : list (string * File) :=
  (path, f) :: filter (fun e => negb (String.eqb (fst e) path)) fs.

Fixpoint fs_read (path : string) (fs : list (string * File)) : option File :=
  match fs with
  | [] => None
  | (p, f) :: fs' => if String.eqb p path then Some f else fs_read path fs'
  end.

Definition set_files (fs : list (string * File)) (w : World) : World :=
  mkWorld (acquired w) (frames_read w) (polled w) (ticks w) fs (trace w).

(** [self.camera.<attr>]: the handle, or the [AttributeError] of [None]. *)
Definition the_camera (attr : string) : M VideoCapture :=
  s <- get_self ;;
  match camera s with
  | Some c => ret c
  | None => raise (Py.AttributeError
                     ("'NoneType' object has no attribute '" ++ attr ++ "'"))
  end.

(** [cv2.VideoCapture(index)]: a new object, and one acquisition attempt. *)
Definition VideoCapture_new (index : Z) : M VideoCapture :=
  w <- get_world ;;
  emit (EvVideoCapture index) ;;
  with_world tick_acquired ;;
  match env_acquire env (acquired w) with
  | AcqOpened p => ret (mkCap true p)
  | AcqClosed => ret closed_capture
  | AcqRaise msg => raise (Py.CvError msg)
  end.

(** [self.camera.open(index)]: one more acquisition attempt on the same
    object; returns whether the device is opened. *)
Definition camera_open (index : Z) : M bool :=
  c <- the_camera "open" ;;
  w <- get_world ;;
  emit (EvOpen index) ;;
  with_world tick_acquired ;;
  match env_acquire env (acquired w) with
  | AcqOpened p => set_camera (Some (mkCap true p)) ;; ret true
  | AcqClosed => set_camera (Some (release c)) ;; ret false
  | AcqRaise msg => raise (Py.CvError msg)
  end.

(** [self.camera.set(prop, value)] with an integer [value]: the library
    takes a float, and the conversion of the integer raises when it is
    beyond the floats; the device decides what it makes of the request; a
    closed object refuses. *)
Definition camera_set (p : CapProp) (value : Z) : M bool :=
  c <- the_camera "set" ;;
  match Py.float_of_int value with
  | None => raise (Py.OverflowError "int too large to convert to float")
  | Some v =>
      emit (EvSet p v) ;;
      if cap_opened c then
        let '(ps, ok) := env_negotiate env p v (cap_params c) in
        set_camera (Some (mkCap true ps)) ;; ret ok
      else ret false
  end.

(** [self.camera.get(prop)]. *)
Definition camera_get (p : CapProp) : M Q :=
  c <- the_camera "get" ;;
  ret (Cv.get (env_get_closed env) c p).

(** [self.camera.read()]: [(True, frame)] or [(False, None)]. *)
Definition camera_read : M (bool * option Frame) :=
  c <- the_camera "read" ;;
  if cap_opened c then
    w <- get_world ;;
    with_world tick_frames_read ;;
    match env_read env (frames_read w) with
    | Some px => emit (EvRead true) ;; ret (true, Some (mkFrame px []))
    | None => emit (EvRead false) ;; ret (false, None)
    end
  else emit (EvRead false) ;; ret (false, None).

(** [self.camera.release()]. *)
Definition camera_release : M unit :=
  c <- the_camera "release" ;;
  emit EvRelease ;;
  set_camera (Some (release c)).

(** [time.time()]. *)
Definition time_time : M Q :=
  w <- get_world ;;
  with_world tick_ticks ;;
  ret (env_time env (ticks w)).

(** [time.sleep(seconds)]. *)
Definition time_sleep (seconds : Z) : M unit := emit (EvSleep seconds).

(** [time.strftime("%Y%m%d_%H%M%S")]: the clock is read, cut to whole
    seconds and brought to local time with the offset in force at that
    second. *)
Definition local_seconds (t : Q) : Z := Qfloor t + env_tz env (Qfloor t).

Definition time_strftime : M string :=
  t <- time_time ;;
  ret (Calendar.strftime (local_seconds t)).

(** [os.path.join(save_path, name)]; [save_path] may be [None]. *)
Definition os_path_join (save_path : option string) (name : string) : M string :=
  match save_path with
  | Some d => ret (Py.path_join d name)
  | None => raise (Py.TypeError
              "expected str, bytes or os.PathLike object, not NoneType")
  end.

(** [cv2.imwrite(path, img, params)]: with an image, returns whether the
    file was written, no exception when it was not; with [None] for the
    image, raises the error of an empty image. *)
Definition imwrite (path : string) (img : option Frame) (quality : option Z) : M bool :=
  match img with
  | None => raise (Py.CvError (env_empty_image env))
  | Some f =>
      let ok := env_writable env path in
      let q := match quality with Some q => q | None => IMWRITE_JPEG_QUALITY_default end in
      (if ok then
         w <- get_world ;;
         with_world (set_files (fs_write path (mkFile f q) (files w)))
       else ret tt) ;;
      emit (EvImwrite path f quality ok) ;;
      ret ok
  end.

(** [cv2.imread(path)]: the image, or [None] when there is no such file. *)
Definition imread (path : string) : M (option Frame) :=
  w <- get_world ;;
  ret (option_map file_frame (fs_read path (files w))).

(** [cv2.putText(img, text, org, ...)]: the text is drawn on the image;
    [None] is taken for an empty image, on which nothing is drawn, and the
    call returns. *)
Definition putText_on (img : option Frame) (text : string) (org : Z * Z)
  : M (option Frame) :=
  ret (option_map (fun f => putText f text org) img).

Definition imshow (win : string) (f : Frame) : M unit := emit (EvImshow win f).

(** [cv2.waitKey(delay)]. *)
Definition waitKey (delay : Z) : M Z :=
  w <- get_world ;;
  with_world tick_polled ;;
  let k := env_key env (polled w) in
  emit (EvWaitKey delay k) ;;
  ret k.

Definition destroyAllWindows : M unit := emit EvDestroyAllWindows.

Definition print (msg : string) : M unit := emit (EvPrint msg).

Definition sys_exit {A} (code : Z) : M A := raise (Py.SystemExit code).

End Methods.

(** ** The class [USBCamera] *)

Module USBCamera.

(** [USBCamera(device_index=0, frame_resolution=(1280, 720), frame_rate=30)] *)
Definition __init__ (device_index : Z) (frame_resolution : Z * Z) (frame_rate : Z)
  : Session :=
  mkSession device_index frame_resolution frame_rate None.

Section WithEnv.

Variable env : Env.

Definition open_camera : M unit :=
  try_except
    (s <- get_self ;;
     c <- VideoCapture_new env (device_index s) ;;
     set_camera (Some c) ;;
     c <- the_camera "isOpened" ;;
     (if negb (isOpened c)
      then _ <- camera_open env (device_index s) ;; ret tt
      else ret tt) ;;
     time_sleep 1 ;;
     _ <- camera_set env CAP_PROP_FRAME_WIDTH (fst (frame_resolution s)) ;;
     _ <- camera_set env CAP_PROP_FRAME_HEIGHT (snd (frame_resolution s)) ;;
     _ <- camera_set env CAP_PROP_FPS (frame_rate s) ;;
     _ <- camera_set env CAP_PROP_AUTOFOCUS 1 ;;
     log INFO ("Initial Camera with configuration: index: "
               ++ Py.str_int (device_index s) ++ ", "
               ++ "resolution: " ++ Py.str_pair (frame_resolution s) ++ ", "
               ++ "frame rate: " ++ Py.str_int (frame_rate s) ++ "fps"))
    (fun e => log ERROR ("Failed to open the camera: " ++ Py.exn_str e)).

(** The text of the second line drawn on every preview frame. *)
Definition frame_info (w h fps : Z) : string :=
  "Frame Info: " ++ Py.str_int w ++ "x" ++ Py.str_int h ++ "@" ++ Py.str_int fps ++ "fps".

Definition actual_info (w h fps : Z) : string :=
  "Actual camera info: " ++ Py.str_int w ++ "x" ++ Py.str_int h ++ "@"
    ++ Py.str_int fps ++ "fps".

Definition countdown_clock (timeout elapsed_time : Q) : string :=
  let remaining_time := Z.max 0 (Py.int (Py.fsub timeout elapsed_time)) in
  let remaining_minute := remaining_time / 60 in
  let remaining_second := remaining_time mod 60 in
  "Countdown Clock: " ++ Py.fmt_02d remaining_minute ++ ":" ++ Py.fmt_02d remaining_second.

(** The text [Enter "q" to close windows]. *)
Definition close_hint : string :=
  "Enter " ++ String "034"%char "q" ++ String "034"%char " to close windows".

(** The [while True:] of [show_live_camera].  [fuel] bounds the number of
    iterations the model follows. *)
Fixpoint show_live_camera_loop (fuel : nat) (timeout start_time : Q)
    (act_frame_width act_frame_height act_frame_fps : Z) : M unit :=
  match fuel with
  | O => out_of_fuel
  | S fuel' =>
      now <- time_time env ;;
      let elapsed_time := Py.fsub now start_time in
      '(ret_, frame) <- camera_read env ;;
      match ret_, frame with
      | true, Some frame =>
          s <- get_self ;;
          let frame := putText frame ("Camera ID: " ++ Py.str_int (device_index s)) (25, 40) in
          let frame := putText frame
                         (frame_info act_frame_width act_frame_height act_frame_fps)
                         (25, 80) in
          let frame := putText frame (countdown_clock timeout elapsed_time) (25, 120) in
          let frame := putText frame close_hint (25, 160) in
          imshow "frame" frame ;;
          key <- waitKey env 1 ;;
          if (key =? ord_q) || Py.gt elapsed_time timeout
          then ret tt
          else show_live_camera_loop fuel' timeout start_time
                 act_frame_width act_frame_height act_frame_fps
      | _, _ =>
          camera_release ;;
          s <- get_self ;;
          log ERROR ("Can not receive camera_id:" ++ Py.str_int (device_index s) ++ " frame") ;;
          sys_exit 1
      end
  end.

Definition show_live_camera (fuel : nat) (timeout : Q) : M unit :=
  w <- camera_get env CAP_PROP_FRAME_WIDTH ;;
  let act_frame_width := Py.int w in
  h <- camera_get env CAP_PROP_FRAME_HEIGHT ;;
  let act_frame_height := Py.int h in
  f <- camera_get env CAP_PROP_FPS ;;
  let act_frame_fps := Py.int f in
  print (actual_info act_frame_width act_frame_height act_frame_fps) ;;
  start_time <- time_time env ;;
  show_live_camera_loop fuel timeout start_time
    act_frame_width act_frame_height act_frame_fps ;;
  destroyAllWindows ;;
  _ <- waitKey env 1 ;;
  ret tt.

Definition add_pic_mark (file_path text : string) : M unit :=
  pic <- imread file_path ;;
  s <- get_self ;;
  pic <- putText_on pic ("Camera ID: " ++ Py.str_int (device_index s)) (25, 40) ;;
  pic <- putText_on pic text (25, 80) ;;
  _ <- imwrite env file_path pic None ;;
  ret tt.

(** The name of the picture, without its extension. *)
Definition picture_stem (test_case_name now_time count : string) : string :=
  test_case_name ++ "_" ++ now_time ++ "_" ++ count.

(** The [try:] statement of [take_picture].  [test_case_name] and [count]
    are given as the text an f-string makes of them. *)
Definition take_picture_try (save_path : option string) (test_case_name count : string)
    (pic_mark : bool) : M unit :=
  try_except
    ('(ret_, frame) <- camera_read env ;;
     match ret_, frame with
     | true, Some frame =>
         now_time <- time_strftime env ;;
         filename <- os_path_join save_path
                       (picture_stem test_case_name now_time count ++ ".jpg") ;;
         _ <- imwrite env filename (Some frame) (Some 95) ;;
         log INFO ("Image saved as: "
                   ++ picture_stem test_case_name now_time count ++ ".jpg") ;;
         if pic_mark
         then add_pic_mark filename (picture_stem test_case_name now_time count)
         else ret tt
     | _, _ => log WARNING "Failed to capture image from camera."
     end)
    (fun e => log ERROR ("Error capturing and saving image: " ++ Py.exn_str e)).

Definition take_picture (save_path : option string) (test_case_name count : string)
    (pic_mark : bool) : M unit :=
  s <- get_self ;;
  (if match camera s with
      | None => true
      | Some c => negb (isOpened c)
      end
   then log WARNING "Camera is not opened. Trying to open it..." ;; open_camera
   else ret tt) ;;
  take_picture_try save_path test_case_name count pic_mark.

Definition release_camera : M unit :=
  s <- get_self ;;
  match camera s with
  | Some _ =>
      camera_release ;;
      log INFO "Camera resources have been released."
  | None => ret tt
  end.

Definition __del__ : M unit := release_camera.

End WithEnv.

End USBCamera.

(** ** Notions the properties are stated with *)

(** The state of a session, as the object lets it be told: no handle
    yet; a handle that holds an opened device; a handle that holds none
    (what [release] leaves, and what an acquisition that found no device
    leaves). *)
Inductive SessionState : Type := Unopened | Open | Released.

Definition session_state (s : Session) : SessionState :=
  match camera s with
  | None => Unopened
  | Some c => if isOpened c then Open else Released
  end.



(** Kinds of events, to count them in a trace. *)
Definition is_VideoCapture (e : Event) : bool :=
  match e with EvVideoCapture _ => true | _ => false end.

Definition is_reopen (e : Event) : bool :=
  match e with EvOpen _ => true | _ => false end.

Definition is_read (e : Event) : bool :=
  match e with EvRead _ => true | _ => false end.

Definition is_imwrite (e : Event) : bool :=
  match e with EvImwrite _ _ _ _ => true | _ => false end.

Definition is_error_log (e : Event) : bool :=
  match e with EvLog ERROR _ => true | _ => false end.

Definition is_destroy (e : Event) : bool :=
  match e with EvDestroyAllWindows => true | _ => false end.




Definition count_ev (p : Event -> bool) (tr : list Event) : nat :=
  List.length (filter p tr).

(** What the device makes of the four requests of [open_camera], each
    passed as a float, starting from the parameters [p0] it was opened
    with. *)
Definition negotiated (env : Env) (s : Session) (p0 : Params) : Params :=
  let p1 := fst (env_negotiate env CAP_PROP_FRAME_WIDTH
                   (Py.float (fst (frame_resolution s))) p0) in
  let p2 := fst (env_negotiate env CAP_PROP_FRAME_HEIGHT
                   (Py.float (snd (frame_resolution s))) p1) in
  let p3 := fst (env_negotiate env CAP_PROP_FPS (Py.float (frame_rate s)) p2) in
  fst (env_negotiate env CAP_PROP_AUTOFOCUS 1 p3).

(** The requests of a session can be passed as floats. *)
Definition requests_convert (s : Session) : Prop :=
  Py.float_of_int (fst (frame_resolution s)) <> None
  /\ Py.float_of_int (snd (frame_resolution s)) <> None
  /\ Py.float_of_int (frame_rate s) <> None.


(** The answer the [i]-th read of a preview gets through the handle [c],
    when [r] frames were read before the preview. *)
Definition read_answer (env : Env) (c : VideoCapture) (r : nat) (i : nat) : option nat :=
  if cap_opened c then env_read env (i + r) else None.

(** Whether the [i]-th iteration of a preview ends the loop: the key polled
    is [q], or the time elapsed at the head of the iteration exceeds the
    timeout.  [p] keys were polled and [t] clock readings made before the
    loop. *)
Definition iter_exits (env : Env) (timeout start_time : Q) (p t : nat) (i : nat) : bool :=
  (env_key env (i + p) =? ord_q)
  || Py.gt (Py.fsub (env_time env (i + t)) start_time) timeout.


(** The path a capture made at clock reading [t] writes to. *)
Definition picture_path (env : Env) (dir label count : string) (t : Q) : string :=
  Py.path_join dir
    (USBCamera.picture_stem label (Calendar.strftime (local_seconds env t)) count ++ ".jpg").

(** [a] and [b] put together as directory and name: with a separator,
    unless [a] is empty or brings its own. *)
Definition under_dir (a b : string) : string :=
  if (String.length a =? 0)%nat || Py.endswith_sep a then a ++ b else a ++ "/" ++ b.

(** ** Checks by computation *)

(** [f] holds of the [n] integers from [z] on. *)
Fixpoint check_from (n : nat) (z : Z) (f : Z -> bool) : bool :=
  match n with
  | O => true
  | S n' => f z && check_from n' (z + 1) f
  end.

(** The day of an era, from the year of the era, the month index counted
    from March and the day of the month: the way back from
    [Calendar.yoe_of], [Calendar.mp_of] and [Calendar.dom_of]. *)
Definition doe_from (yoe mp dom : Z) : Z :=
  365 * yoe + yoe / 4 - yoe / 100 + (153 * mp + 2) / 5 + dom - 1.

Definition doe_ok (doe : Z) : bool :=
  let yoe := Calendar.yoe_of doe in
  let doy := doe - (365 * yoe + yoe / 4 - yoe / 100) in
  let mp := (5 * doy + 2) / 153 in
  let dom := doy - (153 * mp + 2) / 5 + 1 in
  (doe_from yoe mp dom =? doe)
  && (0 <=? yoe) && (yoe <? 400)
  && (0 <=? mp) && (mp <? 12)
  && (1 <=? dom) && (dom <=? 31).

(** The number a text of two decimal digits writes. *)
Definition two_digits (s : string) : option Z :=
  match s with
  | String a (String b EmptyString) =>
      Some (10 * (Z.of_nat (nat_of_ascii a) - 48) + (Z.of_nat (nat_of_ascii b) - 48))
  | _ => None
  end.

Definition fmt_02d_ok (n : Z) : bool :=
  match two_digits (Py.fmt_02d n) with
  | Some m => m =? n
  | None => false
  end.

(** The characters [str_int] writes: digits and the sign. *)
Definition is_numeral (c : ascii) : bool :=
  match c with
  | "0" | "1" | "2" | "3" | "4" | "5" | "6" | "7" | "8" | "9" | "-" => true
  | _ => false
  end%char.

Fixpoint all_numerals (s : string) : bool :=
  match s with
  | EmptyString => true
  | String c s' => is_numeral c && all_numerals s'
  end.

(** The first event of the implicit open of [take_picture]. *)
Definition warn_not_opened : Event :=
  EvLog WARNING "Camera is not opened. Trying to open it...".


(** ** Reasoning about runs *)

(** [wp m Q st]: the run of [m] from [st] ends in a result and a state
    that satisfy [Q]. *)
Definition wp {A} (m : M A) (Q : result A -> St -> Prop) (st : St) : Prop :=
  Q (fst (m st)) (snd (m st)).

(** ** Environments to run the methods in *)

Module Bench.

Definition vga : Params := mkParams 640 480 30 0.

(** A device that keeps its own parameters whatever is requested. *)
Definition keep_own (p : CapProp) (v : Q) (ps : Params) : Params * bool := (ps, false).

(** A library that answers 0 on an object that holds no device, and the
    text of its error for an empty image. *)
Definition zero (p : CapProp) : Q := 0%Q.

Definition empty_image : string :=
  "(-215:Assertion failed) !_img.empty() in function 'imwrite'".

(** Local time is universal time. *)
Definition utc (t : Z) : Z := 0.

(** A device that is there, delivers frames, with a clock that advances
    25 seconds between readings and no key pressed. *)
Definition working : Env :=
  mkEnv (fun _ => AcqOpened vga) keep_own zero (fun n => Some n) (fun _ => -1)
        (fun n => inject_Z (Z.of_nat n) * 25)%Q utc (fun _ => true) empty_image.

(** No device at all. *)
Definition absent : Env :=
  mkEnv (fun _ => AcqClosed) keep_own zero (fun _ => None) (fun _ => -1)
        (fun n => inject_Z (Z.of_nat n)) utc (fun _ => true) empty_image.

(** A device busy at the first attempt and free at the second. *)
Definition busy_once : Env :=
  mkEnv (fun n => match n with O => AcqClosed | _ => AcqOpened vga end)
        keep_own zero (fun n => Some n) (fun _ => -1)
        (fun n => inject_Z (Z.of_nat n)) utc (fun _ => true) empty_image.

(** A device whose stream has died: it opens, and no frame arrives. *)
Definition dead_stream : Env :=
  mkEnv (fun _ => AcqOpened vga) keep_own zero (fun _ => None) (fun _ => -1)
        (fun n => inject_Z (Z.of_nat n)) utc (fun _ => true) empty_image.


(** The operator presses [q] at once. *)
Definition q_pressed : Env :=
  mkEnv (fun _ => AcqOpened vga) keep_own zero (fun n => Some n) (fun _ => ord_q)
        (fun n => inject_Z (Z.of_nat n)) utc (fun _ => true) empty_image.

Definition fresh_world : World := mkWorld 0 0 0 0 [] [].

Definition fresh : St := mkSt (USBCamera.__init__ 0 (1280, 720) 30) fresh_world.

Definition opened_cam : VideoCapture := mkCap true vga.

(** The session after a successful [open_camera]. *)
Definition opened : St :=
  mkSt (mkSession 0 (1280, 720) 30 (Some opened_cam)) fresh_world.


End Bench.

(** * More of the program *)

(** The frame a capture leaves on disk: as read from the device, or, when
    the mark is asked for, with the camera and the name of the picture
    drawn on it by [add_pic_mark]. *)
Definition picture_frame (pic_mark : bool) (index : Z) (stem : string) (px : nat) : Frame :=
  if pic_mark
  then putText (putText (mkFrame px []) ("Camera ID: " ++ Py.str_int index) (25, 40))
         stem (25, 80)
  else mkFrame px [].

(** A frame shown by the preview carries its four texts in their places:
    the camera, the frame info, the countdown and the hint. *)
Definition preview_frame_ok (index : Z) (e : Event) : Prop :=
  match e with
  | EvImshow win f =>
      win = "frame"
      /\ map ov_org (fr_overlays f) = [(25, 40); (25, 80); (25, 120); (25, 160)]
      /\ nth_error (map ov_text (fr_overlays f)) 0 = Some ("Camera ID: " ++ Py.str_int index)
      /\ nth_error (map ov_text (fr_overlays f)) 3 = Some USBCamera.close_hint
  | _ => True
  end.

Definition is_release (e : Event) : bool :=
  match e with EvRelease => true | _ => false end.

Definition is_set (e : Event) : bool :=
  match e with EvSet _ _ => true | _ => false end.

(** ** More environments *)

Module Trial.

(** A working device on a disk where nothing can be written. *)
Definition read_only : Env :=
  mkEnv (fun _ => AcqOpened Bench.vga) Bench.keep_own Bench.zero (fun n => Some n)
        (fun _ => -1) (fun n => inject_Z (Z.of_nat n)) Bench.utc (fun _ => false)
        Bench.empty_image.

(** A working device with a clock read four times a second. *)
Definition burst : Env :=
  mkEnv (fun _ => AcqOpened Bench.vga) Bench.keep_own Bench.zero (fun n => Some n)
        (fun _ => -1) (fun n => Qmake (Z.of_nat n) 4) Bench.utc (fun _ => true)
        Bench.empty_image.

(** No device at the construction, and a driver error at the retry. *)
Definition retry_raises : Env :=
  mkEnv (fun n => match n with O => AcqClosed | _ => AcqRaise "device busy" end)
        Bench.keep_own Bench.zero (fun _ => None) (fun _ => -1)
        (fun n => inject_Z (Z.of_nat n)) Bench.utc (fun _ => true) Bench.empty_image.


(** The end of daylight saving time: the offset of local time goes from
    four hours behind to five hours behind at second 1730613600, and the
    clock is read once an hour from half an hour before that. *)
Definition fall_back : Env :=
  mkEnv (fun _ => AcqOpened Bench.vga) Bench.keep_own Bench.zero (fun n => Some n)
        (fun _ => -1) (fun n => inject_Z (1730611800 + 3600 * Z.of_nat n))
        (fun t => if t <? 1730613600 then -14400 else -18000) (fun _ => true)
        Bench.empty_image.

(** A session that asks for a width no float holds. *)
Definition wide : St :=
  mkSt (USBCamera.__init__ 0 (2 ^ 1024, 720) 30) Bench.fresh_world.

(** An opened session beside a picture taken earlier. *)
Definition with_picture : St :=
  mkSt (mkSession 0 (1280, 720) 30 (Some Bench.opened_cam))
       (mkWorld 0 0 0 0 [("out/a.jpg", mkFile (mkFrame 7 []) 80)] []).

End Trial.

(** ** The functions of the module and the script *)

(** [create_directory], [show_and_select_camera], [logging_init] and the
    script under [if __name__ == "__main__"] run outside any object.  They
    are embedded over a state of their own, [Host.State]: the directories
    that exist, the lines read from the console, the root logger, the
    global [my_camera], and the same world as the methods. *)

Module Host.

(** The exceptions of the class, and those the builtins, [os] and
    [pygame] add at this level. *)
Inductive exn : Type :=
| Of_class (e : Py.exn)
| PygameError (msg : string)
| FileExistsError (path : string)
| NotADirectoryError (path : string)
| ValueError (text : string)
| EOFError
| KeyError (key : Z)
| NameError (name : string).

Definition is_Exception (e : exn) : bool :=
  match e with
  | Of_class e => Py.is_Exception e
  | _ => true
  end.

(** [str(e)], as an f-string renders a caught exception; paths and texts
    are shown between quotes as [repr] shows a text without quotes or
    escapes of its own. *)
Definition exn_str (e : exn) : string :=
  match e with
  | Of_class e => Py.exn_str e
  | PygameError m => m
  | FileExistsError p => "[Errno 17] File exists: '" ++ p ++ "'"
  | NotADirectoryError p => "[Errno 20] Not a directory: '" ++ p ++ "'"
  | ValueError t => "invalid literal for int() with base 10: '" ++ t ++ "'"
  | EOFError => "EOF when reading a line"
  | KeyError k => Py.str_int k
  | NameError n => "name '" ++ n ++ "' is not defined"
  end.

(** What [pygame.camera.init()] followed by [pygame.camera.list_cameras()]
    answers: the names of the cameras, or an error. *)
Inductive Enumeration : Type :=
| Listed (names : list string)
| EnumRaise (msg : string).

(** What the outside answers at this level. *)
Record Answers : Type := mkAnswers {
  (** [os.getcwd()] *)
  he_cwd : string;
  (** the enumeration of the cameras *)
  he_cameras : Enumeration;
  (** the n-th line typed at the console, if there is one *)
  he_input : nat -> option string;
  (** what the builtin [int] makes of a text: an integer, or nothing when
      the text is not one *)
  he_int : string -> option Z
}.

Record State : Type := mkState {
  h_dirs : list string;             (* the directories that exist *)
  h_typed : nat;                    (* console lines read so far *)
  h_prompts : list string;          (* the prompts shown, newest first *)
  h_level : option Level;           (* the level set on the root logger, if one was *)
  h_handlers : nat;                 (* the handlers added to the root logger *)
  h_object : option Session;        (* the global [my_camera] *)
  h_world : World                   (* the world of the methods *)
}.

Inductive hresult (A : Type) : Type :=
| HRet (a : A)
| HRaise (e : exn)
| HOutOfFuel.

Arguments HRet {A} a.
Arguments HRaise {A} e.
Arguments HOutOfFuel {A}.

Definition H (A : Type) : Type := State -> hresult A * State.

Definition hret {A} (a : A) : H A := fun h => (HRet a, h).

Definition hraise {A} (e : exn) : H A := fun h => (HRaise e, h).

Definition hbind {A B} (m : H A) (k : A -> H B) : H B :=
  fun h =>
    match m h with
    | (HRet a, h') => k a h'
    | (HRaise e, h') => (HRaise e, h')
    | (HOutOfFuel, h') => (HOutOfFuel, h')
    end.

Declare Scope host_scope.
Delimit Scope host_scope with host.
Notation "x <- m ;; k" := (hbind m (fun x => k))
  (at level 61, m at next level, right associativity) : host_scope.
Notation "m ;; k" := (hbind m (fun _ => k))
  (at level 61, right associativity) : host_scope.
Local Open Scope host_scope.

(** [try: body  except Exception as e: handler(e)]. *)
Definition htry_except {A} (body : H A) (handler : exn -> H A) : H A :=
  fun h =>
    match body h with
    | (HRaise e, h') => if is_Exception e then handler e h' else (HRaise e, h')
    | r => r
    end.

Definition get_state : H State := fun h => (HRet h, h).

Definition set_dirs (ds : list string) : H unit :=
  fun h => (HRet tt, mkState ds (h_typed h) (h_prompts h) (h_level h) (h_handlers h)
                       (h_object h) (h_world h)).

Definition set_world (w : World) : H unit :=
  fun h => (HRet tt, mkState (h_dirs h) (h_typed h) (h_prompts h) (h_level h) (h_handlers h)
                       (h_object h) w).

Definition set_object (o : option Session) : H unit :=
  fun h => (HRet tt, mkState (h_dirs h) (h_typed h) (h_prompts h) (h_level h) (h_handlers h)
                       o (h_world h)).

(** An event of the world of the methods. *)
Definition hemit (e : Event) : H unit :=
  h <- get_state ;;
  let w := h_world h in
  set_world (mkWorld (acquired w) (frames_read w) (polled w) (ticks w) (files w)
               (e :: trace w)).

(** [logging.info], [logging.warning], [logging.error]. *)
Definition hlog (l : Level) (msg : string) : H unit := hemit (EvLog l msg).

(** [sys.exit(code)]. *)
Definition hexit {A} (code : Z) : H A := hraise (Of_class (Py.SystemExit code)).

(** [time.sleep(seconds)]. *)
Definition hsleep (seconds : Z) : H unit := hemit (EvSleep seconds).

(** *** Paths and directories *)

Definition mem (p : string) (ps : list string) : bool := existsb (String.eqb p) ps.

(** The directories above a path: its prefixes that a separator
    follows, the root and the prefixes that end with a separator left
    out. *)
Fixpoint parents_from (before rest : string) : list string :=
  match rest with
  | EmptyString => []
  | String c rest' =>
      (if Ascii.eqb c "/" && negb (String.length before =? 0)%nat
          && negb (Py.endswith_sep before)
       then [before] else [])
      ++ parents_from (before ++ String c EmptyString) rest'
  end.

Definition parents (p : string) : list string := parents_from EmptyString p.

Definition is_file (w : World) (p : string) : bool :=
  match fs_read p (files w) with Some _ => true | None => false end.

(** [os.path.exists(p)]. *)
Definition path_exists (p : string) : H bool :=
  h <- get_state ;;
  hret (mem p (h_dirs h) || is_file (h_world h) p).

(** The entry of [ps] that follows [q]. *)
Fixpoint next_after (q : string) (ps : list string) : option string :=
  match ps with
  | [] => None
  | a :: rest => if String.eqb a q then hd_error rest else next_after q rest
  end.

(** [os.makedirs(p)]: the directory is made, with the directories above
    it that are not there yet; it is an error that a regular file stands
    above the path, raised for the path just below that file, and that the
    path is there already. *)
Definition makedirs (p : string) : H unit :=
  h <- get_state ;;
  match find (is_file (h_world h)) (parents p) with
  | Some q =>
      hraise (NotADirectoryError
                (match next_after q (parents p ++ [p]) with Some r => r | None => p end))
  | None =>
      if mem p (h_dirs h) || is_file (h_world h) p
      then hraise (FileExistsError p)
      else set_dirs (p :: filter (fun q => negb (mem q (h_dirs h))) (parents p)
                       ++ h_dirs h)
  end.

(** *** The console, the clock and the logger *)

(** [time.strftime("%Y%m%d_%H%M%S")], on the clock of the world. *)
Definition hstrftime (env : Env) : H string :=
  h <- get_state ;;
  let w := h_world h in
  set_world (tick_ticks w) ;;
  hret (Calendar.strftime (local_seconds env (env_time env (ticks w)))).

(** [input(prompt)]. *)
Definition input (ans : Answers) (prompt : string) : H string :=
  h <- get_state ;;
  (fun h' => (HRet tt, mkState (h_dirs h') (S (h_typed h')) (prompt :: h_prompts h')
                         (h_level h') (h_handlers h') (h_object h') (h_world h'))) ;;
  match he_input ans (h_typed h) with
  | Some line => hret line
  | None => hraise EOFError
  end.

(** [int(text)]. *)
Definition int_of (ans : Answers) (text : string) : H Z :=
  match he_int ans text with
  | Some z => hret z
  | None => hraise (ValueError text)
  end.

(** [enumerate(l)], the pairs a [dict] is made of. *)
Fixpoint enumerate_from {A} (i : Z) (l : list A) : list (Z * A) :=
  match l with
  | [] => []
  | x :: l' => (i, x) :: enumerate_from (i + 1) l'
  end.

Definition enumerate {A} (l : list A) : list (Z * A) := enumerate_from 0 l.

(** [d[k]] on the pairs of a [dict]. *)
Fixpoint lookup {A} (k : Z) (d : list (Z * A)) : option A :=
  match d with
  | [] => None
  | (i, x) :: d' => if Z.eqb i k then Some x else lookup k d'
  end.

Definition getitem {A} (d : list (Z * A)) (k : Z) : H A :=
  match lookup k d with
  | Some x => hret x
  | None => hraise (KeyError k)
  end.

(** ['{:=>50}'.format('')]: fifty signs. *)
Fixpoint repeat_char (c : ascii) (n : nat) : string :=
  match n with
  | O => EmptyString
  | S n' => String c (repeat_char c n')
  end.

Definition rule : string := repeat_char "=" 50.

(** *** The functions *)

(** [logging_init()]: the level of the root logger is set and one more
    handler is added to it. *)
Definition logging_init : H unit :=
  fun h => (HRet tt, mkState (h_dirs h) (h_typed h) (h_prompts h) (Some INFO)
                       (S (h_handlers h)) (h_object h) (h_world h)).

Definition create_directory (env : Env) (ans : Answers) : H string :=
  let main_dir := "Pictures" in
  let current_dir := he_cwd ans in
  let main_dir_path := Py.path_join current_dir main_dir in
  there <- path_exists main_dir_path ;;
  (if negb there then makedirs main_dir_path else hret tt) ;;
  time_str <- hstrftime env ;;
  let sub_dir_path := Py.path_join main_dir_path time_str in
  makedirs sub_dir_path ;;
  hret sub_dir_path.

(** The [for id, dev in cameras.items():] of [show_and_select_camera]. *)
Fixpoint log_cameras (cameras : list (Z * string)) : H unit :=
  match cameras with
  | [] => hret tt
  | (id, dev) :: rest =>
      hlog INFO (Py.str_int id ++ " : " ++ dev) ;;
      log_cameras rest
  end.

Definition show_and_select_camera (ans : Answers) : H Z :=
  camera_list <-
    htry_except
      (match he_cameras ans with
       | Listed names => hret names
       | EnumRaise msg => hraise (PygameError msg)
       end)
      (fun e =>
         hlog ERROR ("Failed to initialize cameras or list cameras: " ++ exn_str e) ;;
         hexit 1) ;;
  (match camera_list with
   | [] => hlog ERROR "Do not find any cameras." ;; hexit 1
   | _ => hret tt
   end) ;;
  let cameras := enumerate camera_list in
  let cameras_num := Z.of_nat (List.length cameras) in
  hlog INFO ("Available Cameras as follow, Please choose one: (range: [0-"
             ++ Py.str_int (cameras_num - 1) ++ "])") ;;
  hlog INFO rule ;;
  log_cameras cameras ;;
  hlog INFO rule ;;
  line <- input ans ("Please select the camera index from [0-"
                     ++ Py.str_int (cameras_num - 1) ++ "]:") ;;
  index <- int_of ans line ;;
  if (0 <=? index) && (index <? cameras_num)
  then
    camera <- getitem cameras index ;;
    hlog INFO ("You selection is: [ " ++ Py.str_int index ++ ": " ++ camera ++ " ]") ;;
    hret index
  else
    hlog ERROR "Out of the selection range, please select again!" ;;
    hexit 1.

(** *** The script *)

(** A method called on the global [my_camera]. *)
Definition method {A} (m : M A) : H A :=
  h <- get_state ;;
  match h_object h with
  | None => hraise (NameError "my_camera")
  | Some s =>
      match m (mkSt s (h_world h)) with
      | (r, st') =>
          set_object (Some (self st')) ;;
          set_world (world st') ;;
          match r with
          | Ret a => hret a
          | Raise e => hraise (Of_class e)
          | OutOfFuel => fun h' => (HOutOfFuel, h')
          end
      end
  end.

(** The statements under [if __name__ == "__main__":].  [fuel] bounds the
    iterations of the preview. *)
Definition main (env : Env) (ans : Answers) (fuel : nat) : H unit :=
  logging_init ;;
  path <- create_directory env ans ;;
  id <- show_and_select_camera ans ;;
  set_object (Some (USBCamera.__init__ id (1280, 720) 15)) ;;
  method (USBCamera.open_camera env) ;;
  hsleep 1 ;;
  method (USBCamera.show_live_camera env fuel 60) ;;
  method (USBCamera.take_picture env (Some path) "test" "1" true) ;;
  method USBCamera.release_camera.

End Host.

(** ** Notions for the functions of the module *)

(** No regular file stands at a path or above it. *)
Definition clear_of_files (w : World) (p : string) : bool :=
  negb (Host.is_file w p) && forallb (fun q => negb (Host.is_file w q)) (Host.parents p).

(** The directory of the pictures, and the directory of a run started at
    clock reading [t]. *)
Definition pictures_dir (ans : Host.Answers) : string :=
  Py.path_join (Host.he_cwd ans) "Pictures".

Definition run_dir (env : Env) (ans : Host.Answers) (t : Q) : string :=
  Py.path_join (pictures_dir ans) (Calendar.strftime (local_seconds env t)).

(** A text without separator. *)
Fixpoint no_sep (s : string) : bool :=
  match s with
  | EmptyString => true
  | String c s' => negb (Ascii.eqb c "/") && no_sep s'
  end.

(** [hwp m Q h]: the run of [m] from [h] ends in a result and a state that
    satisfy [Q]. *)
Definition hwp {A} (m : Host.H A) (Q : Host.hresult A -> Host.State -> Prop)
    (h : Host.State) : Prop :=
  Q (fst (m h)) (snd (m h)).

(** The answers of a console at which [0] is typed before two cameras, and
    a host with the working directory alone. *)
Module Desk.

Definition decimal (s : string) : option Z :=
  option_map Z.of_int (NilEmpty.int_of_string s).

Definition two_cameras (line : string) : Host.Answers :=
  Host.mkAnswers "/home/me" (Host.Listed ["USB Cam"; "Built-in"]) (fun _ => Some line) decimal.

Definition no_camera : Host.Answers :=
  Host.mkAnswers "/home/me" (Host.Listed []) (fun _ => Some "0") decimal.

Definition start : Host.State :=
  Host.mkState ["/home/me"] 0 [] None 0 None Bench.fresh_world.

End Desk.

(** A host after events of the world, given oldest first, and after a
    prompt at which a line was read. *)
Definition logged (evs : list Event) (h : Host.State) : Host.State :=
  let w := Host.h_world h in
  Host.mkState (Host.h_dirs h) (Host.h_typed h) (Host.h_prompts h) (Host.h_level h)
    (Host.h_handlers h) (Host.h_object h)
    (mkWorld (acquired w) (frames_read w) (polled w) (ticks w) (files w)
       (rev evs ++ trace w)).

Definition prompted (prompt : string) (h : Host.State) : Host.State :=
  Host.mkState (Host.h_dirs h) (S (Host.h_typed h)) (prompt :: Host.h_prompts h)
    (Host.h_level h) (Host.h_handlers h) (Host.h_object h) (Host.h_world h).

(** The line of the log for a camera and its number. *)
Definition camera_line (p : Z * string) : Event :=
  EvLog INFO (Py.str_int (fst p) ++ " : " ++ snd p).

(** The prompt of [show_and_select_camera] and what it logs before. *)
Definition select_prompt (names : list string) : string :=
  ("Please select the camera index from [0-"
   ++ Py.str_int (Z.of_nat (List.length names) - 1) ++ "]:")%string.

Definition select_listing (names : list string) : list Event :=
  ([EvLog INFO ("Available Cameras as follow, Please choose one: (range: [0-"
                ++ Py.str_int (Z.of_nat (List.length names) - 1) ++ "])")%string;
    EvLog INFO Host.rule]
   ++ map camera_line (Host.enumerate names) ++ [EvLog INFO Host.rule])%list.


(** * Properties *)

Local Open Scope list_scope.

Example strftime_epoch : Calendar.strftime 0 = "19700101_000000".
Proof. reflexivity. Qed.

Example strftime_leap : Calendar.strftime 1709251199 = "20240229_235959".
Proof. reflexivity. Qed.

Example path_join_plain : Py.path_join "Pictures/t" "a.jpg" = "Pictures/t/a.jpg"%string.
Proof. reflexivity. Qed.

Example path_join_rooted : Py.path_join "Pictures/t" "/a.jpg" = "/a.jpg"%string.
Proof. reflexivity. Qed.

Example countdown_at_25 : USBCamera.countdown_clock 60 25 = "Countdown Clock: 00:35"%string.
Proof. reflexivity. Qed.

(** ** Text *)

Section Text.

Local Open Scope string_scope.
Local Open Scope Z_scope.

Lemma length_append (a b : string) :
  String.length (a ++ b) = (String.length a + String.length b)%nat.
Proof. induction a as [|c a IH]; cbn; [reflexivity | now rewrite IH]. Qed.

Lemma append_assoc (a b c : string) : (a ++ b) ++ c = a ++ (b ++ c).
Proof. induction a as [|x a IH]; cbn; [reflexivity | now rewrite IH]. Qed.

Lemma append_inv_head (a x y : string) : a ++ x = a ++ y -> x = y.
Proof. induction a as [|c a IH]; cbn; intros H; [exact H | injection H; auto]. Qed.

(** Two texts that end in tails of one length and are equal have equal
    heads and equal tails. *)
Lemma append_inv_tail (x y a b : string) :
  x ++ a = y ++ b -> String.length a = String.length b -> x = y /\ a = b.
Proof.
  revert y; induction x as [|c x IH]; intros [|d y]; cbn; intros H L.
  - auto.
  - subst a. cbn in L. rewrite length_append in L. lia.
  - subst b. cbn in L. rewrite length_append in L. lia.
  - injection H as -> H. destruct (IH _ H L) as [-> ->]. auto.
Qed.

Lemma str_int_inj (n m : Z) : Py.str_int n = Py.str_int m -> n = m.
Proof.
  unfold Py.str_int; intros H.
  apply DecimalZ.to_int_inj.
  assert (E : NilEmpty.int_of_string (NilEmpty.string_of_int (Z.to_int n))
              = NilEmpty.int_of_string (NilEmpty.string_of_int (Z.to_int m)))
    by now rewrite H.
  rewrite !NilEmpty.isi in E. congruence.
Qed.

End Text.

(** ** Calendar *)

Section CalendarFacts.

Local Open Scope string_scope.
Local Open Scope Z_scope.

Import Calendar.

Lemma check_from_spec n f :
  forall z, check_from n z f = true -> forall x, z <= x < z + Z.of_nat n -> f x = true.
Proof.
  induction n as [|n IH]; cbn [check_from]; intros z H x Hx; [lia|].
  apply andb_true_iff in H as [H1 H2].
  destruct (Z.eq_dec x z) as [->|]; [exact H1 | apply (IH _ H2); lia].
Qed.

Lemma doe_ok_all : check_from (Z.to_nat 146097) 0 doe_ok = true.
Proof. vm_cast_no_check (eq_refl true). Qed.

Lemma doe_facts doe :
  0 <= doe < 146097 ->
  doe_from (yoe_of doe) (mp_of doe) (dom_of doe) = doe
  /\ 0 <= yoe_of doe < 400 /\ 0 <= mp_of doe < 12 /\ 1 <= dom_of doe <= 31.
Proof.
  intros H.
  pose proof (check_from_spec _ _ _ doe_ok_all doe ltac:(lia)) as E.
  unfold doe_ok in E. cbv zeta in E.
  change (doe - (365 * yoe_of doe + yoe_of doe / 4 - yoe_of doe / 100)) with (doy_of doe) in E.
  change ((5 * doy_of doe + 2) / 153) with (mp_of doe) in E.
  change (doy_of doe - (153 * mp_of doe + 2) / 5 + 1) with (dom_of doe) in E.
  repeat (apply andb_true_iff in E as [E ?]).
  lia.
Qed.

Lemma civil_from_days_inj z1 z2 :
  civil_from_days z1 = civil_from_days z2 -> z1 = z2.
Proof.
  unfold civil_from_days; cbv zeta; intros H.
  pose proof (Z.mod_pos_bound (z1 + 719468) 146097 ltac:(lia)) as B1.
  pose proof (Z.mod_pos_bound (z2 + 719468) 146097 ltac:(lia)) as B2.
  pose proof (Z.div_mod (z1 + 719468) 146097 ltac:(lia)) as D1.
  pose proof (Z.div_mod (z2 + 719468) 146097 ltac:(lia)) as D2.
  set (doe1 := (z1 + 719468) mod 146097) in *.
  set (doe2 := (z2 + 719468) mod 146097) in *.
  set (era1 := (z1 + 719468) / 146097) in *.
  set (era2 := (z2 + 719468) / 146097) in *.
  destruct (doe_facts doe1 B1) as (R1 & Y1 & M1 & _).
  destruct (doe_facts doe2 B2) as (R2 & Y2 & M2 & _).
  injection H as Hy Hm Hd.
  assert (Emp : mp_of doe1 = mp_of doe2).
  { destruct (mp_of doe1 <? 10) eqn:E1, (mp_of doe2 <? 10) eqn:E2; lia. }
  rewrite Emp in Hy.
  assert (Ey : yoe_of doe1 = yoe_of doe2 /\ era1 = era2).
  { destruct ((if mp_of doe2 <? 10 then mp_of doe2 + 3 else mp_of doe2 - 9) <=? 2); lia. }
  destruct Ey as [Ey Ee].
  assert (doe1 = doe2) by (rewrite <- R1, <- R2, Ey, Emp, Hd; reflexivity).
  lia.
Qed.

Lemma clock_from_seconds_inj s1 s2 :
  0 <= s1 < 86400 -> 0 <= s2 < 86400 ->
  clock_from_seconds s1 = clock_from_seconds s2 -> s1 = s2.
Proof.
  unfold clock_from_seconds; intros B1 B2 H; injection H as Hh Hm Hs.
  Z.to_euclidean_division_equations; lia.
Qed.

(** The reading is recovered from its day and its second of the day. *)
Lemma strftime_fields_inj t1 t2 :
  civil_from_days (t1 / 86400) = civil_from_days (t2 / 86400) ->
  clock_from_seconds (t1 mod 86400) = clock_from_seconds (t2 mod 86400) ->
  t1 = t2.
Proof.
  intros Hd Hc.
  apply civil_from_days_inj in Hd.
  apply clock_from_seconds_inj in Hc; try (apply Z.mod_pos_bound; lia).
  rewrite (Z.div_mod t1 86400), (Z.div_mod t2 86400) by lia.
  now rewrite Hd, Hc.
Qed.

Lemma civil_ranges z :
  1 <= month (civil_from_days z) <= 12 /\ 1 <= day (civil_from_days z) <= 31.
Proof.
  unfold civil_from_days; cbv zeta; cbn [month day].
  destruct (doe_facts ((z + 719468) mod 146097)) as (_ & _ & M & D);
    [apply Z.mod_pos_bound; lia|].
  destruct (mp_of _ <? 10) eqn:E; lia.
Qed.

Lemma clock_ranges s :
  0 <= s < 86400 ->
  0 <= hour (clock_from_seconds s) < 24
  /\ 0 <= minute (clock_from_seconds s) < 60
  /\ 0 <= second (clock_from_seconds s) < 60.
Proof.
  intros B; unfold clock_from_seconds; cbn [hour minute second].
  Z.to_euclidean_division_equations; lia.
Qed.

Lemma fmt_02d_ok_all : check_from 100 0 fmt_02d_ok = true.
Proof. vm_cast_no_check (eq_refl true). Qed.

Lemma fmt_02d_two_digits n : 0 <= n < 100 -> two_digits (Py.fmt_02d n) = Some n.
Proof.
  intros H. pose proof (check_from_spec _ _ _ fmt_02d_ok_all n ltac:(lia)) as E.
  unfold fmt_02d_ok in E. destruct (two_digits _) as [m|]; [|discriminate].
  apply Z.eqb_eq in E. now subst.
Qed.

Lemma fmt_02d_length n : 0 <= n < 100 -> String.length (Py.fmt_02d n) = 2%nat.
Proof.
  intros H. pose proof (fmt_02d_two_digits n H) as E.
  destruct (Py.fmt_02d n) as [|a [|b [|c s]]]; cbn in E; try discriminate; reflexivity.
Qed.

Lemma fmt_02d_inj n m :
  0 <= n < 100 -> 0 <= m < 100 -> Py.fmt_02d n = Py.fmt_02d m -> n = m.
Proof.
  intros Hn Hm E. pose proof (fmt_02d_two_digits n Hn) as A.
  rewrite E, (fmt_02d_two_digits m Hm) in A. congruence.
Qed.

Lemma strftime_inj t1 t2 : strftime t1 = strftime t2 -> t1 = t2.
Proof.
  unfold strftime; cbv zeta; intros H.
  destruct (civil_ranges (t1 / 86400)) as [M1 D1], (civil_ranges (t2 / 86400)) as [M2 D2].
  destruct (clock_ranges (t1 mod 86400)) as (H1 & N1 & S1); [apply Z.mod_pos_bound; lia|].
  destruct (clock_ranges (t2 mod 86400)) as (H2 & N2 & S2); [apply Z.mod_pos_bound; lia|].
  set (d1 := civil_from_days (t1 / 86400)) in *.
  set (d2 := civil_from_days (t2 / 86400)) in *.
  set (c1 := clock_from_seconds (t1 mod 86400)) in *.
  set (c2 := clock_from_seconds (t2 mod 86400)) in *.
  apply append_inv_tail in H as [Ey H];
    [| rewrite !length_append, !fmt_02d_length by lia; reflexivity].
  apply str_int_inj in Ey.
  rewrite <- !append_assoc in H.
  apply append_inv_tail in H as [H Es]; [| rewrite !fmt_02d_length by lia; reflexivity].
  apply append_inv_tail in H as [H En]; [| rewrite !fmt_02d_length by lia; reflexivity].
  apply append_inv_tail in H as [H Eh]; [| rewrite !fmt_02d_length by lia; reflexivity].
  apply append_inv_tail in H as [H _]; [| reflexivity].
  apply append_inv_tail in H as [Em Ed]; [| rewrite !fmt_02d_length by lia; reflexivity].
  apply fmt_02d_inj in Es, En, Eh, Em, Ed; try lia.
  apply strftime_fields_inj; fold d1 d2 c1 c2.
  - destruct d1, d2; cbn in *; congruence.
  - destruct c1, c2; cbn in *; congruence.
Qed.

End CalendarFacts.

(** ** Names of pictures and texts on frames *)

Section Names.

Local Open Scope string_scope.
Local Open Scope Z_scope.
Import USBCamera.

Lemma uint_numerals d : all_numerals (NilEmpty.string_of_uint d) = true.
Proof. induction d; cbn; auto. Qed.

Lemma str_int_numerals n : all_numerals (Py.str_int n) = true.
Proof.
  unfold Py.str_int, NilEmpty.string_of_int.
  destruct (Z.to_int n); cbn; apply uint_numerals.
Qed.



Lemma picture_stem_inj l c t1 t2 :
  picture_stem l t1 c ++ ".jpg" = picture_stem l t2 c ++ ".jpg" -> t1 = t2.
Proof.
  intros E. apply append_inv_tail in E as [E _]; [| reflexivity].
  unfold picture_stem in E. apply append_inv_head in E. injection E as E.
  apply append_inv_tail in E as [E _]; [exact E | reflexivity].
Qed.

Lemma startswith_sep_stem l t1 t2 c :
  Py.startswith_sep (picture_stem l t1 c ++ ".jpg")
  = Py.startswith_sep (picture_stem l t2 c ++ ".jpg").
Proof. unfold picture_stem. destruct l; reflexivity. Qed.

Lemma path_join_inj d n1 n2 :
  Py.startswith_sep n1 = Py.startswith_sep n2 ->
  Py.path_join d n1 = Py.path_join d n2 -> n1 = n2.
Proof.
  unfold Py.path_join. intros ->.
  destruct (Py.startswith_sep n2); [auto|].
  destruct ((String.length d =? 0)%nat || Py.endswith_sep d); intros E.
  - now apply append_inv_head in E.
  - apply append_inv_head in E. now injection E.
Qed.

Lemma path_join_under d n :
  Py.startswith_sep n = false -> Py.path_join d n = under_dir d n.
Proof. unfold Py.path_join, under_dir. now intros ->. Qed.

Lemma startswith_sep_label l t c :
  Py.startswith_sep (picture_stem l t c ++ ".jpg") = Py.startswith_sep l.
Proof. unfold picture_stem. destruct l; reflexivity. Qed.

Lemma local_seconds_apart env (t1 t2 : Q) :
  env_tz env (Qfloor t1) = env_tz env (Qfloor t2) ->
  (t1 + 1 <= t2)%Q -> local_seconds env t1 < local_seconds env t2.
Proof.
  unfold local_seconds. intros Z H. rewrite Z.
  assert (Qfloor t1 + 1 <= Qfloor t2); [|lia].
  rewrite <- (Qfloor_Z (Qfloor t1 + 1)). apply Qfloor_resp_le.
  rewrite inject_Z_plus. eapply Qle_trans; [|exact H].
  apply Qplus_le_l. apply Qfloor_le.
Qed.

Lemma picture_path_apart env dir l c (t1 t2 : Q) :
  env_tz env (Qfloor t1) = env_tz env (Qfloor t2) ->
  (t1 + 1 <= t2)%Q -> picture_path env dir l c t1 <> picture_path env dir l c t2.
Proof.
  intros Z H E. apply local_seconds_apart with (env := env) in H; [|exact Z].
  unfold picture_path in E.
  apply path_join_inj in E; [| apply startswith_sep_stem].
  apply picture_stem_inj, strftime_inj in E. lia.
Qed.

End Names.

(** ** Floats *)

Arguments Py.double : simpl never.
Arguments Py.fsub : simpl never.
Arguments Py.float : simpl never.
Arguments Py.float_of_int : simpl never.

Lemma float_of_int_some z :
  Py.float_of_int z <> None -> Py.float_of_int z = Some (Py.float z).
Proof. unfold Py.float_of_int. destruct (Qle_bool _ _); [congruence | reflexivity]. Qed.

Lemma float_of_int_value z v : Py.float_of_int z = Some v -> v = Py.float z.
Proof. unfold Py.float_of_int. destruct (Qle_bool _ _); congruence. Qed.

Lemma float_of_int_one : Py.float_of_int 1 = Some 1%Q.
Proof. vm_compute. reflexivity. Qed.

(** The rounding of a float that is written with few bits is that float. *)
Example double_of_tenth : Py.double (1 # 10) = (3602879701896397 # 36028797018963968)%Q.
Proof. vm_compute. reflexivity. Qed.

Example double_ties_to_even :
  Py.float (2 ^ 53 + 1) = inject_Z (2 ^ 53) /\ Py.float (2 ^ 53 + 3) = inject_Z (2 ^ 53 + 4).
Proof. vm_compute. split; reflexivity. Qed.

Example float_of_int_limit :
  Py.float_of_int (2 ^ 1024 - 2 ^ 970) = None
  /\ Py.float_of_int (2 ^ 1024 - 2 ^ 970 - 1) <> None.
Proof. vm_compute. split; [reflexivity | discriminate]. Qed.

(** The countdown of a long timeout: the difference is rounded to a float
    before it is cut to an integer. *)
Example countdown_rounds :
  USBCamera.countdown_clock (inject_Z (10 ^ 16)) (1 # 2)
  = ("Countdown Clock: " ++ Py.str_int ((10 ^ 16) / 60) ++ ":40")%string.
Proof. vm_compute. reflexivity. Qed.

(** ** Rules for runs *)

Import USBCamera.

Section WpRules.

Context {A B : Type}.

Lemma wp_ret (a : A) Q st : Q (Ret a) st -> wp (ret a) Q st.
Proof. exact (fun H => H). Qed.

Lemma wp_raise e (Q : result A -> St -> Prop) st : Q (Raise e) st -> wp (raise e) Q st.
Proof. exact (fun H => H). Qed.

Lemma wp_bind (m : M A) (k : A -> M B) Q st :
  wp m (fun r st' =>
          match r with
          | Ret a => wp (k a) Q st'
          | Raise e => Q (Raise e) st'
          | OutOfFuel => Q OutOfFuel st'
          end) st ->
  wp (bind m k) Q st.
Proof. unfold wp, bind. destruct (m st) as [[a|e|] st']; exact (fun H => H). Qed.

Lemma wp_try_except (body : M A) handler Q st :
  wp body (fun r st' =>
             match r with
             | Raise e => if Py.is_Exception e then wp (handler e) Q st' else Q (Raise e) st'
             | _ => Q r st'
             end) st ->
  wp (try_except body handler) Q st.
Proof.
  unfold wp, try_except. destruct (body st) as [[a|e|] st']; cbn; try exact (fun H => H).
  destruct (Py.is_Exception e); exact (fun H => H).
Qed.

Lemma wp_elim (m : M A) Q st : wp m Q st -> exists r st', m st = (r, st') /\ Q r st'.
Proof. unfold wp. destruct (m st) as [r st']. eauto. Qed.

End WpRules.

Lemma wp_get_self Q st : Q (Ret (self st)) st -> wp get_self Q st.
Proof. exact (fun H => H). Qed.

Lemma wp_get_world Q st : Q (Ret (world st)) st -> wp get_world Q st.
Proof. exact (fun H => H). Qed.

Lemma wp_set_camera c Q st :
  Q (Ret tt) (mkSt (mkSession (device_index (self st)) (frame_resolution (self st))
                      (frame_rate (self st)) c) (world st)) ->
  wp (set_camera c) Q st.
Proof. exact (fun H => H). Qed.

Lemma wp_with_world f Q st :
  Q (Ret tt) (mkSt (self st) (f (world st))) -> wp (with_world f) Q st.
Proof. exact (fun H => H). Qed.

Lemma wp_emit e Q st :
  Q (Ret tt) (mkSt (self st)
                (mkWorld (acquired (world st)) (frames_read (world st)) (polled (world st))
                   (ticks (world st)) (files (world st)) (e :: trace (world st)))) ->
  wp (emit e) Q st.
Proof. exact (fun H => H). Qed.

(** One step of a run: the rule of the computation at the head, a case
    analysis when the computation waits for an answer of the environment,
    or the unfolding of a library call.  The methods that have lemmas of
    their own are left folded. *)
Ltac head_of t := lazymatch t with ?f _ => head_of f | _ => t end.

Ltac wp_simpl :=
  cbn beta iota delta [self world device_index frame_resolution frame_rate camera
    acquired frames_read polled ticks files trace cap_opened cap_params isOpened
    negb fst snd tick_acquired tick_frames_read tick_polled tick_ticks set_files
    Py.is_Exception release closed_capture option_map].

Ltac wp_step :=
  lazymatch goal with
  | |- wp (bind _ _) _ _ => apply wp_bind
  | |- wp (ret _) _ _ => apply wp_ret
  | |- wp (raise _) _ _ => apply wp_raise
  | |- wp (try_except _ _) _ _ => apply wp_try_except
  | |- wp get_self _ _ => apply wp_get_self
  | |- wp get_world _ _ => apply wp_get_world
  | |- wp (set_camera _) _ _ => apply wp_set_camera
  | |- wp (with_world _) _ _ => apply wp_with_world
  | |- wp (emit _) _ _ => apply wp_emit
  | |- wp (match ?x with _ => _ end) _ _ =>
      first [ is_var x; destruct x
            | match goal with H : x = _ |- _ => rewrite H end
            | lazymatch x with
              | Py.float_of_int 1 => rewrite float_of_int_one
              | context [cap_opened ?c] => is_var c; destruct c as [[] ?]
              | _ => destruct x eqn:?
              end ]
  | |- wp ?m _ _ =>
      let h := head_of m in
      lazymatch h with
      | @show_live_camera_loop => fail
      | @open_camera => fail
      | @take_picture_try => fail
      | _ => unfold h
      end
  end; wp_simpl.

Ltac wp_run := wp_simpl; repeat wp_step.

(** The events a run added in front of the trace [tr]. *)
Ltac prefix_of l tr :=
  lazymatch l with
  | tr => constr:(@nil Event)
  | ?e :: ?l' => let d := prefix_of l' tr in constr:(e :: d)
  end.

Ltac trace_delta :=
  lazymatch goal with
  | |- ?l = ?d ++ ?tr => let p := prefix_of l tr in unify d p; reflexivity
  end.

Lemma wp_consequence {A} (m : M A) (Q' Q : result A -> St -> Prop) st :
  wp m Q' st -> (forall r st', Q' r st' -> Q r st') -> wp m Q st.
Proof. unfold wp. auto. Qed.


Lemma wp_eq {A} (m m' : M A) Q st : m st = m' st -> wp m' Q st -> wp m Q st.
Proof. unfold wp. intros ->. exact (fun H => H). Qed.

Lemma wp_out_of_fuel {A} (Q : result A -> St -> Prop) st :
  Q OutOfFuel st -> wp out_of_fuel Q st.
Proof. exact (fun H => H). Qed.

Section OpenCamera.

Variable env : Env.

Lemma open_camera_wp st :
  wp (open_camera env)
     (fun r st' =>
        r = Ret tt
        /\ (exists d,
              trace (world st') = d ++ EvVideoCapture (device_index (self st)) :: trace (world st)
              /\ count_ev is_VideoCapture d = 0%nat
              /\ (count_ev is_reopen d <= 1)%nat
              /\ count_ev is_read d = 0%nat
              /\ count_ev is_imwrite d = 0%nat)
        /\ files (world st') = files (world st)
        /\ frames_read (world st') = frames_read (world st)
        /\ ticks (world st') = ticks (world st)
        /\ polled (world st') = polled (world st)
        /\ device_index (self st') = device_index (self st)
        /\ (camera (self st) <> None -> camera (self st') <> None)) st.
Proof.
  destruct st as [[idx res rate cam] [a r p t fs tr]].
  unfold open_camera; wp_run.
  all: (repeat split; try reflexivity; try congruence;
        eexists; split; [trace_delta|]; cbn; repeat split; lia).
Qed.

Ltac negotiated_known :=
  unfold negotiated;
  cbn [frame_resolution frame_rate fst snd];
  repeat match goal with
    | H : env_negotiate _ _ _ _ = _ |- _ => rewrite H; clear H; cbn [fst snd]
    end.

(** The requests of a session, known to pass as floats. *)
Ltac requests_known H :=
  let W := fresh "W" in let G := fresh "G" in let F := fresh "F" in
  destruct H as (W & G & F);
  apply float_of_int_some in W; apply float_of_int_some in G; apply float_of_int_some in F;
  cbn [frame_resolution frame_rate fst snd] in W, G, F.


(** No device at the first attempt: the second attempt. *)
Lemma open_camera_closed st :
  env_acquire env (acquired (world st)) = AcqClosed ->
  wp (open_camera env)
     (fun r st' =>
        r = Ret tt
        /\ (exists d,
              trace (world st')
              = d ++ EvOpen (device_index (self st))
                  :: EvVideoCapture (device_index (self st)) :: trace (world st)
              /\ count_ev is_VideoCapture d = 0%nat
              /\ count_ev is_reopen d = 0%nat
              /\ (env_acquire env (S (acquired (world st))) = AcqClosed ->
                  requests_convert (self st) ->
                  count_ev is_error_log d = 0%nat))
        /\ acquired (world st') = S (S (acquired (world st)))
        /\ (env_acquire env (S (acquired (world st))) = AcqClosed ->
            camera (self st') = Some closed_capture)
        /\ (forall p, env_acquire env (S (acquired (world st))) = AcqOpened p ->
            requests_convert (self st) ->
            camera (self st') = Some (mkCap true (negotiated env (self st) p)))) st.
Proof.
  destruct st as [[idx [rw rh] rate cam] [a r p t fs tr]]; cbn [world self acquired].
  intros H. unfold open_camera; wp_run.
  all: repeat split; try reflexivity; try discriminate.
  all: try (eexists; split; [trace_delta|]; cbn; repeat split; intros; congruence).
  all: try (eexists; split; [trace_delta|]; cbn; repeat split;
            intros E C; requests_known C; congruence).
  all: intros pp E C; injection E as <-.
  all: try (requests_known C; congruence).
  repeat match goal with
         | H1 : Py.float_of_int _ = Some ?v |- _ =>
             is_var v; apply float_of_int_value in H1; subst v
         end.
  negotiated_known. reflexivity.
Qed.

(** The driver raises at the first attempt. *)
Lemma open_camera_raised st msg :
  env_acquire env (acquired (world st)) = AcqRaise msg ->
  wp (open_camera env)
     (fun r st' =>
        r = Ret tt
        /\ self st' = self st
        /\ trace (world st')
           = EvLog ERROR ("Failed to open the camera: " ++ msg)
               :: EvVideoCapture (device_index (self st)) :: trace (world st)) st.
Proof.
  destruct st as [[idx res rate cam] [a r p t fs tr]]; cbn [world self acquired].
  intros H. unfold open_camera; wp_run. repeat split.
Qed.

End OpenCamera.

Arguments Calendar.strftime : simpl never.
Arguments Py.path_join : simpl never.
Arguments Py.str_int : simpl never.
Arguments String.append : simpl never.
Arguments fs_read : simpl never.
Arguments fs_write : simpl never.

Section Release.

Lemma release_camera_unopened idx res rate w :
  release_camera (mkSt (mkSession idx res rate None) w)
  = (Ret tt, mkSt (mkSession idx res rate None) w).
Proof. reflexivity. Qed.

Lemma release_camera_handle st c :
  camera (self st) = Some c ->
  release_camera st
  = (Ret tt,
     mkSt (mkSession (device_index (self st)) (frame_resolution (self st))
             (frame_rate (self st)) (Some (release c)))
          (mkWorld (acquired (world st)) (frames_read (world st)) (polled (world st))
             (ticks (world st)) (files (world st))
             (EvLog INFO "Camera resources have been released."
                :: EvRelease :: trace (world st)))).
Proof.
  destruct st as [[idx res rate cam] w]; cbn [self camera]; intros ->. reflexivity.
Qed.

Lemma release_camera_returns st :
  exists st',
    release_camera st = (Ret tt, st')
    /\ session_state (self st') <> Open
    /\ (camera (self st') = None <-> camera (self st) = None).
Proof.
  destruct (camera (self st)) as [c|] eqn:E.
  - rewrite (release_camera_handle st c E). eexists; split; [reflexivity|].
    cbn. split; [discriminate|]. split; discriminate.
  - destruct st as [[idx res rate cam] w]; cbn in E; subst cam.
    eexists; split; [apply release_camera_unopened|]. cbn. split; [discriminate | tauto].
Qed.

End Release.

Section TakePicture.

Variable env : Env.

Lemma fs_read_write path f fs : fs_read path (fs_write path f fs) = Some f.
Proof. unfold fs_write, fs_read. now rewrite String.eqb_refl. Qed.

Lemma take_picture_try_wp sp l c m st :
  wp (take_picture_try env sp l c m)
     (fun r st' =>
        r = Ret tt
        /\ self st' = self st
        /\ acquired (world st') = acquired (world st)
        /\ (exists d,
              trace (world st') = d ++ trace (world st)
              /\ count_ev is_VideoCapture d = 0%nat
              /\ count_ev is_reopen d = 0%nat
              /\ (count_ev is_read d <= 1)%nat
              /\ (session_state (self st) <> Open -> count_ev is_imwrite d = 0%nat))
        /\ (session_state (self st) <> Open -> files (world st') = files (world st))) st.
Proof.
  destruct st as [[idx res rate cam] [a r p t fs tr]].
  unfold take_picture_try; wp_run.
  all: repeat split; try reflexivity; try (cbn; congruence).
  all: eexists; split; [trace_delta|]; cbn; repeat split; try lia; congruence.
Qed.

Lemma take_picture_open_eq sp l c m st cam :
  camera (self st) = Some cam -> isOpened cam = true ->
  take_picture env sp l c m st = take_picture_try env sp l c m st.
Proof.
  destruct st as [[idx res rate cam'] w], cam as [o ps]; cbn [self camera isOpened cap_opened].
  intros -> ->. reflexivity.
Qed.

Lemma take_picture_not_open_wp sp l c m st :
  session_state (self st) <> Open ->
  wp (take_picture env sp l c m)
     (fun r st' =>
        r = Ret tt
        /\ (exists d_try d_open,
              trace (world st')
              = d_try ++ d_open ++ EvVideoCapture (device_index (self st))
                  :: warn_not_opened :: trace (world st)
              /\ count_ev is_VideoCapture d_open = 0%nat
              /\ (count_ev is_reopen d_open <= 1)%nat
              /\ count_ev is_read d_open = 0%nat
              /\ count_ev is_imwrite d_open = 0%nat
              /\ count_ev is_VideoCapture d_try = 0%nat
              /\ count_ev is_reopen d_try = 0%nat
              /\ (count_ev is_read d_try <= 1)%nat
              /\ (session_state (self st') <> Open -> count_ev is_imwrite d_try = 0%nat))
        /\ (session_state (self st') <> Open -> files (world st') = files (world st))
        /\ (camera (self st) <> None -> camera (self st') <> None)) st.
Proof.
  intros NotOpen.
  destruct st as [[idx res rate cam] [a r p t fs tr]].
  unfold take_picture.
  destruct cam as [[[] ps]|]; [exfalso; apply NotOpen; reflexivity | | ].
  all: wp_run.
  all: eapply wp_consequence; [apply open_camera_wp|].
  all: intros r1 st1 (-> & (d1 & T1 & V1 & O1 & R1 & I1) & F1 & _ & _ & _ & _ & K1); wp_simpl.
  all: eapply wp_consequence; [apply take_picture_try_wp|].
  all: intros r2 st2 (-> & S2 & _ & (d2 & T2 & V2 & O2 & R2 & I2) & F2).
  all: rewrite S2; cbn [self world camera device_index trace files] in *.
  all: split; [reflexivity|]; split; [|split].
  all: try (exists d2, d1; rewrite T2, T1; repeat split; auto).
  all: try (intros N; rewrite (F2 N); exact F1).
  all: try (intros _; apply K1; discriminate).
  intros N; contradiction.
Qed.

(** The session is opened and no frame arrives. *)
Lemma take_picture_no_frame sp l c m st cam :
  camera (self st) = Some cam -> isOpened cam = true ->
  env_read env (frames_read (world st)) = None ->
  take_picture env sp l c m st
  = (Ret tt,
     mkSt (self st)
       (mkWorld (acquired (world st)) (S (frames_read (world st))) (polled (world st))
          (ticks (world st)) (files (world st))
          (EvLog WARNING "Failed to capture image from camera."
             :: EvRead false :: trace (world st)))).
Proof.
  intros Hc Ho Hr. rewrite (take_picture_open_eq _ _ _ _ _ _ Hc Ho).
  destruct st as [[idx res rate cam'] [a r p t fs tr]], cam as [o ps].
  cbn in Hc, Ho, Hr. subst o cam'.
  unfold take_picture_try, try_except, bind, camera_read, the_camera, get_self, get_world,
    with_world, emit, log, ret. cbn. rewrite Hr. reflexivity.
Qed.

(** The session is opened and a frame arrives. *)
Lemma take_picture_frame_wp sp l c m st cam px :
  camera (self st) = Some cam -> isOpened cam = true ->
  env_read env (frames_read (world st)) = Some px ->
  wp (take_picture env sp l c m)
     (fun r st' =>
        r = Ret tt /\ self st' = self st
        /\ exists d, trace (world st') = d ++ EvRead true :: trace (world st)
                     /\ count_ev is_read d = 0%nat) st.
Proof.
  intros Hc Ho Hr. apply (wp_eq _ _ _ _ (take_picture_open_eq _ _ _ _ _ _ Hc Ho)).
  destruct st as [[idx res rate cam'] [a r p t fs tr]], cam as [o ps].
  cbn in Hc, Ho, Hr. subst o cam'.
  unfold take_picture_try; wp_run.
  all: repeat split; eexists; split; [trace_delta | reflexivity].
Qed.

(** The session is opened, a frame arrives and a directory is given. *)
Lemma take_picture_written_wp dir l c m st cam px :
  camera (self st) = Some cam -> isOpened cam = true ->
  env_read env (frames_read (world st)) = Some px ->
  let path := picture_path env dir l c (env_time env (ticks (world st))) in
  wp (take_picture env (Some dir) l c m)
     (fun r st' =>
        r = Ret tt
        /\ (exists d,
              trace (world st')
              = d ++ EvImwrite path (mkFrame px []) (Some 95) (env_writable env path)
                  :: EvRead true :: trace (world st))
        /\ (env_writable env path = true ->
            exists f, fs_read path (files (world st')) = Some f
                      /\ file_quality f = 95
                      /\ fr_pixels (file_frame f) = px)) st.
Proof.
  intros Hc Ho Hr path. apply (wp_eq _ _ _ _ (take_picture_open_eq _ _ _ _ _ _ Hc Ho)).
  destruct st as [[idx res rate cam'] [a r p t fs tr]], cam as [o ps].
  cbn in Hc, Ho, Hr. subst o cam'.
  cbn [world ticks] in path.
  subst path; unfold picture_path.
  unfold take_picture_try; wp_run.
  all: repeat match goal with
         | H : context [fs_read _ (fs_write _ _ _)] |- _ =>
             rewrite fs_read_write in H; cbn in H; inversion H; subst; clear H
         end.
  all: split; [reflexivity|]; split;
    [ eexists; trace_delta
    | intros W;
      first [ congruence
            | rewrite ?fs_read_write; eexists; split; [reflexivity|]; split; reflexivity ] ].
Qed.

End TakePicture.

Arguments countdown_clock : simpl never.
Arguments frame_info : simpl never.
Arguments actual_info : simpl never.
Arguments close_hint : simpl never.
Arguments Py.gt : simpl never.
Arguments Py.int : simpl never.


Section Preview.

Variable env : Env.

Section Loop.

Variables (timeout start_time : Q) (aw ah af : Z).

Local Abbreviation loop fuel :=
  (show_live_camera_loop env fuel timeout start_time aw ah af).


(** The loop goes on as long as frames arrive and nothing ends it. *)
Lemma loop_skip k : forall fuel st c (Q : result unit -> St -> Prop),
  camera (self st) = Some c ->
  (forall i, (i < k)%nat ->
     read_answer env c (frames_read (world st)) i <> None
     /\ iter_exits env timeout start_time (polled (world st)) (ticks (world st)) i = false) ->
  (forall w',
     frames_read w' = (k + frames_read (world st))%nat ->
     polled w' = (k + polled (world st))%nat ->
     ticks w' = (k + ticks (world st))%nat ->
     (exists d, trace w' = d ++ trace (world st)
                /\ count_ev is_read d = k /\ count_ev is_destroy d = 0%nat) ->
     wp (loop fuel) Q (mkSt (self st) w')) ->
  wp (loop (k + fuel)) Q st.
Proof.
  induction k as [|k IH]; intros fuel st c Q Hc Hk Hw.
  - destruct st as [s w]. apply Hw; try reflexivity. exists []. repeat split.
  - destruct st as [[idx res rate cam] [a r p t fs tr]], c as [o ps].
    cbn [self world camera frames_read polled ticks trace] in *. subst cam.
    destruct (Hk 0%nat ltac:(lia)) as [R0 X0].
    unfold read_answer, iter_exits in R0, X0. cbn [cap_opened Nat.add] in R0, X0.
    destruct o; [|contradiction].
    destruct (env_read env r) as [px|] eqn:Er; [|contradiction].
    cbn [show_live_camera_loop Nat.add]. wp_run.
    eapply IH; [reflexivity | |]; cbn [self world camera frames_read polled ticks trace].
    + intros i Hi. destruct (Hk (S i) ltac:(lia)) as [R X].
      unfold read_answer, iter_exits in *. cbn [cap_opened] in *.
      rewrite !Nat.add_succ_r. exact (conj R X).
    + intros w' Fr Po Ti (d & T & Rd & Ds). apply Hw; try lia.
      eexists (d ++ [_; _; _]).
      rewrite T, <- app_assoc. split; [reflexivity|].
      unfold count_ev in *. rewrite !filter_app, !length_app, Rd, Ds. cbn. split; lia.
Qed.

(** The first iteration that the key or the clock ends. *)
Lemma loop_exit k fuel st c :
  camera (self st) = Some c ->
  (forall i, (i < k)%nat ->
     read_answer env c (frames_read (world st)) i <> None
     /\ iter_exits env timeout start_time (polled (world st)) (ticks (world st)) i = false) ->
  read_answer env c (frames_read (world st)) k <> None ->
  iter_exits env timeout start_time (polled (world st)) (ticks (world st)) k = true ->
  wp (loop (k + S fuel))
     (fun r st' =>
        r = Ret tt /\ self st' = self st
        /\ polled (world st') = (S k + polled (world st))%nat
        /\ exists d, trace (world st') = d ++ trace (world st)
                     /\ count_ev is_read d = S k /\ count_ev is_destroy d = 0%nat) st.
Proof.
  intros Hc Hk Rk Xk. eapply loop_skip; [exact Hc | exact Hk |].
  intros [a' r' p' t' fs' tr'] Fr Po Ti (d & T & Rd & Ds).
  destruct st as [[idx res rate cam] [a r p t fs tr]], c as [o ps].
  cbn [self world camera frames_read polled ticks trace] in *. subst cam r' p' t' tr'.
  unfold read_answer, iter_exits in Rk, Xk. cbn [cap_opened] in Rk.
  destruct o; [|contradiction].
  destruct (env_read env (k + r)) as [px|] eqn:Er; [|contradiction].
  cbn [show_live_camera_loop]. wp_run.
  repeat split.
  eexists ([_; _; _] ++ d).
  split; [reflexivity|].
  unfold count_ev in *. rewrite !filter_app, !length_app, Rd, Ds. cbn. split; lia.
Qed.


End Loop.


Lemma show_live_camera_exit k fuel timeout st c :
  camera (self st) = Some c ->
  (forall i, (i < k)%nat ->
     read_answer env c (frames_read (world st)) i <> None
     /\ iter_exits env timeout (env_time env (ticks (world st)))
          (polled (world st)) (S (ticks (world st))) i = false) ->
  read_answer env c (frames_read (world st)) k <> None ->
  iter_exits env timeout (env_time env (ticks (world st)))
    (polled (world st)) (S (ticks (world st))) k = true ->
  (k < fuel)%nat ->
  wp (show_live_camera env fuel timeout)
     (fun r st' =>
        r = Ret tt /\ self st' = self st
        /\ exists d,
             trace (world st')
             = EvWaitKey 1 (env_key env (S k + polled (world st)))
                 :: EvDestroyAllWindows :: d ++ trace (world st)
             /\ count_ev is_read d = S k /\ count_ev is_destroy d = 0%nat) st.
Proof.
  intros Hc Hk Rk Xk Hf.
  replace fuel with (k + S (fuel - S k))%nat by lia.
  destruct st as [[idx res rate cam] [a r p t fs tr]].
  cbn [self world camera frames_read polled ticks trace] in *. subst cam.
  unfold show_live_camera. wp_run.
  eapply wp_consequence; [eapply loop_exit; [reflexivity | exact Hk | exact Rk | exact Xk]|].
  intros r' [s' [a' r'' p' t' fs' tr']] (-> & S' & P' & d & T & Rd & Ds).
  cbn [self world camera frames_read polled ticks trace] in *. subst s' p' tr'.
  wp_run. repeat split.
  eexists (d ++ [_]). rewrite <- app_assoc. split; [reflexivity|].
  unfold count_ev in *. rewrite !filter_app, !length_app, Rd, Ds. cbn. split; lia.
Qed.






End Preview.

Local Open Scope cam_scope.
Local Open Scope list_scope.

(** * The claims *)

(** ** C1 *)






(** ** C2 *)

(** C2: [release_camera] on a session without handle does nothing, and
    [open_camera], [release_camera], [release_camera] and the release of
    [__del__] in a row all return normally, whatever the device answers;
    a second release leaves the session as the first left it. *)
Theorem release_idempotent env :
  (forall idx res rate w,
     release_camera (mkSt (mkSession idx res rate None) w)
     = (Ret tt, mkSt (mkSession idx res rate None) w))
  /\ (forall st,
        exists st',
          (open_camera env ;; release_camera ;; release_camera ;; __del__) st = (Ret tt, st')
          /\ session_state (self st') <> Open)
  /\ (forall st,
        exists st1 st2,
          release_camera st = (Ret tt, st1)
          /\ release_camera st1 = (Ret tt, st2)
          /\ self st2 = self st1).
Proof.
  split; [| split].
  - intros. reflexivity.
  - intros st.
    destruct (wp_elim _ _ _ (open_camera_wp env st)) as (r & st1 & E1 & -> & _).
    destruct (release_camera_returns st1) as (st2 & E2 & _).
    destruct (release_camera_returns st2) as (st3 & E3 & _).
    destruct (release_camera_returns st3) as (st4 & E4 & N4 & _).
    exists st4. split; [| exact N4].
    unfold bind, __del__. now rewrite E1, E2, E3, E4.
  - intros st. destruct (camera (self st)) as [c|] eqn:Ec.
    + rewrite (release_camera_handle st c Ec). do 2 eexists. split; [reflexivity|].
      split; [apply release_camera_handle; reflexivity | reflexivity].
    + destruct st as [[idx res rate cam] w]. cbn in Ec. subst cam.
      do 2 eexists. split; [reflexivity|]. split; reflexivity.
Qed.

(** ** C10 *)

(** C10: [show_live_camera] on a session that was never opened raises an
    [AttributeError] at its first use of the handle, nothing else done: no
    open is attempted, where [take_picture] on the same session attempts
    one. *)
Theorem preview_unopened env fuel timeout idx res rate w :
  let st := mkSt (__init__ idx res rate) w in
  show_live_camera env fuel timeout st
  = (Raise (Py.AttributeError "'NoneType' object has no attribute 'get'"), st)
  /\ forall sp l c m,
       exists st' d,
         take_picture env sp l c m st = (Ret tt, st')
         /\ trace (world st') = d ++ EvVideoCapture idx :: warn_not_opened :: trace w.
Proof.
  intros st. split; [reflexivity|]. intros sp l c m.
  destruct (wp_elim _ _ _ (take_picture_not_open_wp env sp l c m st ltac:(discriminate)))
    as (r & st' & E & -> & (d1 & d2 & T & _) & _).
  exists st', (d1 ++ d2). rewrite <- app_assoc. auto.
Qed.

(** ** C3 *)

(** C3, as stated, fails: with no device to open, a capture on a fresh
    session leaves the session not Open and writes no file, and returns
    normally: the caller is given no failure. *)
Lemma implicit_open_failure_not_propagated :
  let r := take_picture Bench.absent (Some "out") "test" "1" false Bench.fresh in
  session_state (self (snd r)) <> Open
  /\ files (world (snd r)) = []
  /\ fst r = Ret tt
  /\ forall e, fst r <> Raise e.
Proof. vm_compute. repeat split; discriminate. Qed.

(** C3, amended: a capture on a session that is not Open makes exactly one
    implicit open (one [VideoCapture] construction, with at most one
    [open] retry inside it), all of it before the frame read; if the
    session is still not Open afterwards, no file is written, and the
    capture returns normally: no failure is propagated to the caller. *)
Theorem capture_implicit_open env st sp l c m :
  session_state (self st) <> Open ->
  exists st' d_try d_open,
    take_picture env sp l c m st = (Ret tt, st')
    /\ trace (world st')
       = d_try ++ d_open ++ EvVideoCapture (device_index (self st))
           :: warn_not_opened :: trace (world st)
    /\ count_ev is_VideoCapture (d_try ++ d_open) = 0%nat
    /\ (count_ev is_reopen (d_try ++ d_open) <= 1)%nat
    /\ count_ev is_reopen d_try = 0%nat
    /\ count_ev is_read d_open = 0%nat
    /\ (count_ev is_read d_try <= 1)%nat
    /\ (session_state (self st') <> Open ->
        files (world st') = files (world st)
        /\ count_ev is_imwrite (d_try ++ d_open) = 0%nat).
Proof.
  intros H.
  destruct (wp_elim _ _ _ (take_picture_not_open_wp env sp l c m st H))
    as (r & st' & E & -> & (d1 & d2 & T & V2 & O2 & R2 & I2 & V1 & O1 & R1 & I1) & F & _).
  exists st', d1, d2. unfold count_ev in *.
  rewrite !filter_app, !length_app, V1, V2, O1.
  split; [exact E|]. split; [exact T|]. split; [reflexivity|]. split; [exact O2|].
  split; [reflexivity|]. split; [exact R2|]. split; [exact R1|].
  intros N. split; [exact (F N) | rewrite (I1 N), I2; reflexivity].
Qed.

Lemma capture_implicit_open_witness :
  session_state (self Bench.fresh) <> Open
  /\ exists st' d_try d_open,
       take_picture Bench.absent (Some "out") "test" "1" false Bench.fresh = (Ret tt, st')
       /\ trace (world st')
          = d_try ++ d_open ++ EvVideoCapture (device_index (self Bench.fresh))
              :: warn_not_opened :: trace (world Bench.fresh)
       /\ count_ev is_VideoCapture (d_try ++ d_open) = 0%nat
       /\ (count_ev is_reopen (d_try ++ d_open) <= 1)%nat
       /\ count_ev is_reopen d_try = 0%nat
       /\ count_ev is_read d_open = 0%nat
       /\ (count_ev is_read d_try <= 1)%nat
       /\ (session_state (self st') <> Open ->
           files (world st') = files (world Bench.fresh)
           /\ count_ev is_imwrite (d_try ++ d_open) = 0%nat).
Proof.
  split; [discriminate|].
  apply (capture_implicit_open Bench.absent Bench.fresh). discriminate.
Defined.

(** ** C4 *)

(** C4: a capture on an Open session whose frame read fails logs a
    warning, writes no file, leaves the session as it was (Open, same
    handle) and returns normally; a capture called next reads a frame
    again, first thing. *)
Theorem capture_read_failure env st cam sp l c m :
  camera (self st) = Some cam -> isOpened cam = true ->
  env_read env (frames_read (world st)) = None ->
  exists st',
    take_picture env sp l c m st = (Ret tt, st')
    /\ self st' = self st
    /\ session_state (self st') = Open
    /\ files (world st') = files (world st)
    /\ trace (world st')
       = EvLog WARNING "Failed to capture image from camera."
           :: EvRead false :: trace (world st)
    /\ forall sp2 l2 c2 m2,
         exists st'' d ok,
           take_picture env sp2 l2 c2 m2 st' = (Ret tt, st'')
           /\ trace (world st'') = d ++ EvRead ok :: trace (world st')
           /\ count_ev is_read d = 0%nat
           /\ (ok = true <-> env_read env (frames_read (world st')) <> None).
Proof.
  intros Hc Ho Hr. rewrite (take_picture_no_frame env sp l c m st cam Hc Ho Hr).
  eexists. split; [reflexivity|]. cbn [self world files trace frames_read].
  split; [reflexivity|].
  split; [unfold session_state; rewrite Hc, Ho; reflexivity|].
  split; [reflexivity|]. split; [reflexivity|].
  intros sp2 l2 c2 m2.
  match goal with |- context [take_picture _ _ _ _ _ ?s] => set (st1 := s) end.
  destruct (env_read env (S (frames_read (world st)))) as [px|] eqn:Er.
  - destruct (wp_elim _ _ _ (take_picture_frame_wp env sp2 l2 c2 m2 st1 cam px Hc Ho Er))
      as (r & st'' & E & -> & _ & d & T & R).
    exists st'', d, true. repeat split; auto. discriminate.
  - rewrite (take_picture_no_frame env sp2 l2 c2 m2 st1 cam Hc Ho Er).
    eexists _, [_], false. cbn. repeat split; try discriminate. congruence.
Qed.

Lemma capture_read_failure_witness :
  exists st',
    take_picture Bench.dead_stream (Some "out") "test" "1" true Bench.opened = (Ret tt, st')
    /\ self st' = self Bench.opened
    /\ session_state (self st') = Open
    /\ files (world st') = files (world Bench.opened)
    /\ trace (world st')
       = EvLog WARNING "Failed to capture image from camera."
           :: EvRead false :: trace (world Bench.opened)
    /\ forall sp2 l2 c2 m2,
         exists st'' d ok,
           take_picture Bench.dead_stream sp2 l2 c2 m2 st' = (Ret tt, st'')
           /\ trace (world st'') = d ++ EvRead ok :: trace (world st')
           /\ count_ev is_read d = 0%nat
           /\ (ok = true <-> env_read Bench.dead_stream (frames_read (world st')) <> None).
Proof.
  apply (capture_read_failure Bench.dead_stream Bench.opened Bench.opened_cam);
    reflexivity.
Defined.

(** ** C5 *)



(** ** C6 *)





(** The key [q] pressed at the first poll: one iteration, whatever the
    timeout. *)
Lemma preview_cancelled_at_once env st c fuel timeout px :
  camera (self st) = Some c -> isOpened c = true ->
  env_read env (frames_read (world st)) = Some px ->
  env_key env (polled (world st)) = ord_q ->
  (0 < fuel)%nat ->
  exists st' d,
    show_live_camera env fuel timeout st = (Ret tt, st')
    /\ trace (world st')
       = EvWaitKey 1 (env_key env (1 + polled (world st)))
           :: EvDestroyAllWindows :: d ++ trace (world st)
    /\ count_ev is_read d = 1%nat.
Proof.
  intros Hc Ho Hr Hq Hf.
  destruct (wp_elim _ _ _ (show_live_camera_exit env 0 fuel timeout st c Hc
                             ltac:(intros; lia)
                             ltac:(unfold read_answer; unfold isOpened in Ho;
                                   rewrite Ho; cbn; congruence)
                             ltac:(unfold iter_exits; cbn [Nat.add]; rewrite Hq; reflexivity)
                             Hf))
    as (r & st' & E & -> & S' & d & T & R & D).
  exists st', d. auto.
Qed.

Example preview_q_pressed :
  exists st' d,
    show_live_camera Bench.q_pressed 1 60 Bench.opened = (Ret tt, st')
    /\ trace (world st')
       = EvWaitKey 1 ord_q :: EvDestroyAllWindows :: d ++ trace (world Bench.opened)
    /\ count_ev is_read d = 1%nat.
Proof.
  apply (preview_cancelled_at_once Bench.q_pressed Bench.opened Bench.opened_cam 1 60 0%nat);
    try reflexivity. lia.
Qed.

(** No key ever pressed: the loop runs until the first iteration whose
    sample exceeds the timeout, and that iteration is the last. *)
Lemma preview_times_out env st c fuel timeout k :
  camera (self st) = Some c -> isOpened c = true ->
  (forall i, env_read env (i + frames_read (world st)) <> None) ->
  (forall i, env_key env (i + polled (world st)) <> ord_q) ->
  (forall i, (i < k)%nat ->
     Py.gt (Py.fsub (env_time env (i + S (ticks (world st))))
                    (env_time env (ticks (world st))))
       timeout = false) ->
  Py.gt (Py.fsub (env_time env (k + S (ticks (world st)))) (env_time env (ticks (world st))))
    timeout = true ->
  (k < fuel)%nat ->
  exists st' d,
    show_live_camera env fuel timeout st = (Ret tt, st')
    /\ trace (world st')
       = EvWaitKey 1 (env_key env (S k + polled (world st)))
           :: EvDestroyAllWindows :: d ++ trace (world st)
    /\ count_ev is_read d = S k.
Proof.
  intros Hc Ho Hr Hq Hk Xk Hf. unfold isOpened in Ho.
  assert (Hn : forall i, (env_key env (i + polled (world st)) =? ord_q) = false)
    by (intros i; apply Z.eqb_neq, Hq).
  destruct (wp_elim _ _ _ (show_live_camera_exit env k fuel timeout st c Hc
                             ltac:(intros i Hi; unfold read_answer, iter_exits;
                                   rewrite Ho, Hn, (Hk i Hi); split; [apply Hr | reflexivity])
                             ltac:(unfold read_answer; rewrite Ho; apply Hr)
                             ltac:(unfold iter_exits; rewrite Hn, Xk; reflexivity)
                             Hf))
    as (r & st' & E & -> & S' & d & T & R & D).
  exists st', d. auto.
Qed.

(** ** C7 *)

(** C7, as stated, fails: with no device to acquire, [open_camera] makes a
    second acquisition attempt by itself, returns normally and logs no
    error; and a device that is busy at the first attempt only is opened by
    that second attempt. *)
Lemma open_retries_and_returns :
  let r := open_camera Bench.absent Bench.fresh in
  fst r = Ret tt
  /\ (forall e, fst r <> Raise e)
  /\ acquired (world (snd r)) = 2%nat
  /\ count_ev is_reopen (trace (world (snd r))) = 1%nat
  /\ count_ev is_error_log (trace (world (snd r))) = 0%nat
  /\ session_state (self (snd r)) = Released
  /\ session_state (self (snd (open_camera Bench.busy_once Bench.fresh))) = Open.
Proof. vm_compute. repeat split; discriminate. Qed.

(** C7, amended: [open_camera] always returns normally.  If the
    [VideoCapture] construction leaves the device unopened, the acquisition
    is retried once with [open], and only once; if that fails too the
    session is left with a closed handle.  If the driver raises at the
    construction, the error is logged and swallowed, and the session is as
    before. *)
Theorem open_acquisition env st :
  (exists st', open_camera env st = (Ret tt, st'))
  /\ (env_acquire env (acquired (world st)) = AcqClosed ->
      exists st' d,
        open_camera env st = (Ret tt, st')
        /\ trace (world st')
           = d ++ EvOpen (device_index (self st))
               :: EvVideoCapture (device_index (self st)) :: trace (world st)
        /\ count_ev is_VideoCapture d = 0%nat
        /\ count_ev is_reopen d = 0%nat
        /\ acquired (world st') = S (S (acquired (world st)))
        /\ (env_acquire env (S (acquired (world st))) = AcqClosed ->
            session_state (self st') = Released))
  /\ (forall msg,
        env_acquire env (acquired (world st)) = AcqRaise msg ->
        exists st',
          open_camera env st = (Ret tt, st')
          /\ self st' = self st
          /\ trace (world st')
             = EvLog ERROR ("Failed to open the camera: " ++ msg)%string
                 :: EvVideoCapture (device_index (self st)) :: trace (world st)).
Proof.
  split; [| split].
  - destruct (wp_elim _ _ _ (open_camera_wp env st)) as (r & st' & E & -> & _). eauto.
  - intros H.
    destruct (wp_elim _ _ _ (open_camera_closed env st H))
      as (r & st' & E & -> & (d & T & V & O & L) & A & C & _).
    exists st', d.
    split; [exact E|]. split; [exact T|]. split; [exact V|]. split; [exact O|].
    split; [exact A|].
    intros H2. unfold session_state. rewrite (C H2). reflexivity.
  - intros msg H.
    destruct (wp_elim _ _ _ (open_camera_raised env st msg H)) as (r & st' & E & -> & S & T).
    eauto.
Qed.

Lemma open_acquisition_witness :
  env_acquire Bench.absent (acquired (world Bench.fresh)) = AcqClosed
  /\ exists st' d,
       open_camera Bench.absent Bench.fresh = (Ret tt, st')
       /\ trace (world st')
          = d ++ EvOpen (device_index (self Bench.fresh))
              :: EvVideoCapture (device_index (self Bench.fresh))
              :: trace (world Bench.fresh)
       /\ count_ev is_VideoCapture d = 0%nat
       /\ count_ev is_reopen d = 0%nat
       /\ acquired (world st') = S (S (acquired (world Bench.fresh)))
       /\ (env_acquire Bench.absent (S (acquired (world Bench.fresh))) = AcqClosed ->
           session_state (self st') = Released).
Proof.
  split; [reflexivity|].
  apply (proj1 (proj2 (open_acquisition Bench.absent Bench.fresh))). reflexivity.
Defined.

(** ** C8 *)

(** C8, as stated, fails: a label that begins with a separator takes the
    picture out of the directory. *)
Lemma rooted_label_leaves_directory :
  let st := snd (take_picture Bench.working (Some "out") "/tmp/x" "1" false Bench.opened) in
  fs_read "out//tmp/x_19700101_000000_1.jpg" (files (world st)) = None
  /\ fs_read "/tmp/x_19700101_000000_1.jpg" (files (world st))
     = Some (mkFile (mkFrame 0 []) 95).
Proof. vm_compute. split; reflexivity. Qed.

(** The second sentence of C8 fails as well where the offset of local
    time changes: at the end of daylight saving time, two captures an hour
    apart carry the same timestamp, and the second is written over the
    first. *)
Example fall_back_same_path :
  let t1 := env_time Trial.fall_back 0 in
  let t2 := env_time Trial.fall_back 1 in
  (t1 + 3600 == t2)%Q
  /\ picture_path Trial.fall_back "out" "test" "1" t1 = "out/test_20241103_013000_1.jpg"%string
  /\ picture_path Trial.fall_back "out" "test" "1" t2 = "out/test_20241103_013000_1.jpg"%string
  /\ List.length
       (files (world (snd ((take_picture Trial.fall_back (Some "out") "test" "1" false ;;
                            take_picture Trial.fall_back (Some "out") "test" "1" false)
                             Bench.opened)))) = 1%nat.
Proof. vm_compute. repeat split. Qed.

(** C8, amended: a successful capture with a directory writes the frame
    with JPEG quality 95 to [os.path.join] of the directory and
    [<label>_<timestamp>_<count>.jpg], the timestamp being that of the
    whole second of the capture in local time; for a label that does not
    begin with a separator this is the name under the directory, with a
    separator unless the directory is empty or ends with one; and two
    captures with one label and one count, a second or more apart, are
    written to different paths when the same offset of local time is in
    force at both. *)
Theorem capture_file_name env :
  (forall st cam dir l c m px,
     camera (self st) = Some cam -> isOpened cam = true ->
     env_read env (frames_read (world st)) = Some px ->
     let path := picture_path env dir l c (env_time env (ticks (world st))) in
     exists st' d,
       take_picture env (Some dir) l c m st = (Ret tt, st')
       /\ trace (world st')
          = d ++ EvImwrite path (mkFrame px []) (Some 95) (env_writable env path)
              :: EvRead true :: trace (world st)
       /\ (env_writable env path = true ->
           exists f, fs_read path (files (world st')) = Some f
                     /\ file_quality f = 95
                     /\ fr_pixels (file_frame f) = px))
  /\ (forall dir l c t,
        Py.startswith_sep l = false ->
        picture_path env dir l c t
        = under_dir dir (l ++ "_" ++ Calendar.strftime (local_seconds env t)
                           ++ "_" ++ c ++ ".jpg")%string)
  /\ (forall dir l c t1 t2,
        Qfloor t1 = Qfloor t2 -> picture_path env dir l c t1 = picture_path env dir l c t2)
  /\ (forall dir l c t1 t2,
        env_tz env (Qfloor t1) = env_tz env (Qfloor t2) ->
        (t1 + 1 <= t2)%Q -> picture_path env dir l c t1 <> picture_path env dir l c t2).
Proof.
  split; [| split; [| split]].
  - intros st cam dir l c m px Hc Ho Hr path.
    pose proof (take_picture_written_wp env dir l c m st cam px Hc Ho Hr) as W.
    cbv zeta in W. apply wp_elim in W.
    destruct W as (r & st' & E & -> & (d & T) & F).
    exists st', d. auto.
  - intros dir l c t H. unfold picture_path.
    rewrite path_join_under by (rewrite startswith_sep_label; exact H).
    unfold picture_stem. now rewrite !append_assoc.
  - intros dir l c t1 t2 H. unfold picture_path, local_seconds. now rewrite H.
  - intros dir l c t1 t2. apply picture_path_apart.
Qed.

Lemma capture_file_name_witness :
  exists st' d,
    take_picture Bench.working (Some "out") "test" "1" true Bench.opened = (Ret tt, st')
    /\ trace (world st')
       = d ++ EvImwrite "out/test_19700101_000000_1.jpg" (mkFrame 0 []) (Some 95) true
           :: EvRead true :: trace (world Bench.opened)
    /\ (true = true ->
        exists f, fs_read "out/test_19700101_000000_1.jpg" (files (world st')) = Some f
                  /\ file_quality f = 95
                  /\ fr_pixels (file_frame f) = 0%nat).
Proof.
  apply (proj1 (capture_file_name Bench.working)
           Bench.opened Bench.opened_cam "out" "test" "1" true 0%nat);
    reflexivity.
Defined.

(** ** C9 *)



(** ** A whole run *)

(** One device, opened with 1280x720 at 30 frames a second, one capture
    with label [smoke], count [1] and the mark asked for: one file, under
    the directory, of quality 95, with the camera and the name drawn on
    it. *)
Example smoke_run :
  let run := open_camera Bench.working ;;
             take_picture Bench.working (Some "Pictures/19700101_000000") "smoke" "1" true ;;
             release_camera in
  fst (run Bench.fresh) = Ret tt
  /\ files (world (snd (run Bench.fresh)))
     = [("Pictures/19700101_000000/smoke_19700101_000000_1.jpg"%string,
         mkFile (mkFrame 0 [mkOverlay "Camera ID: 0" (25, 40);
                            mkOverlay "smoke_19700101_000000_1" (25, 80)]) 95)]
  /\ session_state (self (snd (run Bench.fresh))) = Released.
Proof. vm_compute. repeat split. Qed.

(** * More of the class *)

Section MoreOfTheClass.

Variable env : Env.

(** A run known to return gives its final state. *)
Lemma wp_elim_ret {A} (m : M A) (a : A) (P : St -> Prop) st :
  wp m (fun r st' => r = Ret a /\ P st') st -> exists st', m st = (Ret a, st') /\ P st'.
Proof. unfold wp. destruct (m st) as [r st']. cbn. intros [-> H]. eauto. Qed.

Lemma open_camera_keeps_request st :
  wp (open_camera env)
     (fun r st' =>
        r = Ret tt
        /\ device_index (self st') = device_index (self st)
        /\ frame_resolution (self st') = frame_resolution (self st)
        /\ frame_rate (self st') = frame_rate (self st)) st.
Proof.
  destruct st as [[idx res rate cam] [a r p t fs tr]].
  unfold open_camera; wp_run; repeat split.
Qed.

(** X1: [take_picture] never raises, whatever the session, the device and
    the arguments, and it leaves the index, the requested resolution and
    the requested rate of the session as they were. *)
Theorem take_picture_never_raises st sp l c m :
  exists st',
    take_picture env sp l c m st = (Ret tt, st')
    /\ device_index (self st') = device_index (self st)
    /\ frame_resolution (self st') = frame_resolution (self st)
    /\ frame_rate (self st') = frame_rate (self st).
Proof.
  apply wp_elim_ret.
  destruct st as [[idx res rate cam] [a r p t fs tr]].
  unfold take_picture. wp_run.
  all: try (eapply wp_consequence; [apply open_camera_keeps_request|];
            intros r1 st1 (-> & D1 & R1 & F1); wp_simpl).
  all: eapply wp_consequence; [apply take_picture_try_wp|].
  all: intros r2 st2 (-> & -> & _); auto.
Qed.

Lemma filter_other_path path (f : File) fs :
  filter (fun e => negb (String.eqb (fst e) path)) (fs_write path f fs)
  = filter (fun e => negb (String.eqb (fst e) path)) fs.
Proof.
  unfold fs_write. cbn [filter fst]. rewrite String.eqb_refl. cbn [negb].
  induction fs as [|[p g] fs IH]; [reflexivity|].
  cbn [filter fst]. destruct (String.eqb p path) eqn:E; cbn [negb]; [exact IH|].
  cbn [filter fst]. rewrite E. cbn [negb]. now rewrite IH.
Qed.

(** A file written twice at one path is the file written last. *)
Lemma fs_write_write path f g fs :
  fs_write path g (fs_write path f fs) = fs_write path g fs.
Proof. unfold fs_write at 1 3. now rewrite filter_other_path. Qed.

Lemma fs_read_cons k p (f : File) fs :
  fs_read k ((p, f) :: fs) = if String.eqb p k then Some f else fs_read k fs.
Proof. reflexivity. Qed.

(** Writing at one path leaves what is read at the others. *)
Lemma fs_read_other path p f fs :
  p <> path -> fs_read p (fs_write path f fs) = fs_read p fs.
Proof.
  intros N. unfold fs_write. rewrite fs_read_cons.
  assert (E : String.eqb path p = false) by (apply String.eqb_neq; congruence).
  rewrite E.
  induction fs as [|[q g] fs IH]; [reflexivity|].
  cbn [filter fst]. rewrite fs_read_cons.
  destruct (String.eqb q path) eqn:Eq; cbn [negb].
  - apply String.eqb_eq in Eq. subst q. rewrite E. exact IH.
  - rewrite fs_read_cons. destruct (String.eqb q p); [reflexivity | exact IH].
Qed.

(** The session is opened, a frame arrives, a directory is given and the
    file can be written: the whole of what [take_picture] does. *)
Lemma take_picture_written_exact dir l c m st cam px :
  camera (self st) = Some cam -> isOpened cam = true ->
  env_read env (frames_read (world st)) = Some px ->
  let stem := picture_stem l (Calendar.strftime
                                (local_seconds env (env_time env (ticks (world st))))) c in
  let path := picture_path env dir l c (env_time env (ticks (world st))) in
  env_writable env path = true ->
  take_picture env (Some dir) l c m st
  = (Ret tt,
     mkSt (self st)
       (mkWorld (acquired (world st)) (S (frames_read (world st))) (polled (world st))
          (S (ticks (world st)))
          (fs_write path
             (mkFile (picture_frame m (device_index (self st)) stem px) 95)
             (files (world st)))
          ((if m
            then [EvImwrite path (picture_frame true (device_index (self st)) stem px)
                    None true]
            else [])
           ++ EvLog INFO ("Image saved as: " ++ stem ++ ".jpg")%string
           :: EvImwrite path (mkFrame px []) (Some 95) true
           :: EvRead true :: trace (world st)))).
Proof.
  intros Hc Ho Hr stem path Hw.
  rewrite (take_picture_open_eq env _ _ _ _ _ _ Hc Ho).
  match goal with |- _ = (Ret tt, ?s) =>
    enough (G : wp (take_picture_try env (Some dir) l c m)
                  (fun r st' => r = Ret tt /\ st' = s) st)
  end.
  { unfold wp in G. destruct (take_picture_try env (Some dir) l c m st) as [r st'].
    cbn in G. destruct G as [-> ->]. reflexivity. }
  subst stem path. unfold picture_path in *.
  destruct st as [[idx res rate cam'] [a r p t fs tr]], cam as [o ps].
  cbn in Hc, Ho, Hr, Hw. subst o cam'.
  unfold take_picture_try; wp_run.
  all: repeat match goal with
         | H : context [fs_read _ (fs_write _ _ _)] |- _ =>
             rewrite fs_read_write in H; cbn in H; inversion H; subst; clear H
         end.
  - split; [reflexivity|]. cbn [picture_frame app]. now rewrite fs_write_write.
  - split; reflexivity.
Qed.

(** X2: a capture without directory ([save_path] left to its default
    [None]) on an Open session takes a frame from the device and then fails
    inside: the [TypeError] of [os.path.join] is caught and logged, no file
    is written and the call returns normally. *)
Theorem capture_without_directory st cam l c m px :
  camera (self st) = Some cam -> isOpened cam = true ->
  env_read env (frames_read (world st)) = Some px ->
  take_picture env None l c m st
  = (Ret tt,
     mkSt (self st)
       (mkWorld (acquired (world st)) (S (frames_read (world st))) (polled (world st))
          (S (ticks (world st))) (files (world st))
          (EvLog ERROR ("Error capturing and saving image: "
                        ++ "expected str, bytes or os.PathLike object, not NoneType")%string
             :: EvRead true :: trace (world st)))).
Proof.
  intros Hc Ho Hr.
  rewrite (take_picture_open_eq env _ _ _ _ _ _ Hc Ho).
  match goal with |- _ = (Ret tt, ?s) =>
    enough (G : wp (take_picture_try env None l c m)
                  (fun r st' => r = Ret tt /\ st' = s) st)
  end.
  { unfold wp in G. destruct (take_picture_try env None l c m st) as [r st'].
    cbn in G. destruct G as [-> ->]. reflexivity. }
  destruct st as [[idx res rate cam'] [a r p t fs tr]], cam as [o ps].
  cbn in Hc, Ho, Hr. subst o cam'.
  unfold take_picture_try; wp_run. split; reflexivity.
Qed.

(** X3: after a successful capture the file at the picture's path holds
    the frame read, with quality 95: bare when no mark is asked for, and with
    the camera and the name of the picture drawn on it when the mark is
    asked for; what is read at any other path is as before. *)
Theorem capture_file_content st cam dir l c m px :
  camera (self st) = Some cam -> isOpened cam = true ->
  env_read env (frames_read (world st)) = Some px ->
  let stem := picture_stem l (Calendar.strftime
                                (local_seconds env (env_time env (ticks (world st))))) c in
  let path := picture_path env dir l c (env_time env (ticks (world st))) in
  env_writable env path = true ->
  let st' := snd (take_picture env (Some dir) l c m st) in
  fs_read path (files (world st'))
  = Some (mkFile (picture_frame m (device_index (self st)) stem px) 95)
  /\ forall p, p <> path -> fs_read p (files (world st')) = fs_read p (files (world st)).
Proof.
  intros Hc Ho Hr stem path Hw st'. subst st'.
  rewrite (take_picture_written_exact dir l c m st cam px Hc Ho Hr Hw).
  cbn [snd world files]. split; [apply fs_read_write | intros p N; now apply fs_read_other].
Qed.

Lemma picture_path_same_second dir l c (t1 t2 : Q) :
  Qfloor t1 = Qfloor t2 -> picture_path env dir l c t1 = picture_path env dir l c t2.
Proof. intros H. unfold picture_path, local_seconds. now rewrite H. Qed.

(** X4: two captures with one directory, label and count whose clock
    readings fall in one second are written to one path, and the second
    takes the place of the first: the files are then as if the first had
    never been taken. *)
Theorem same_second_overwrites st cam dir l c m px1 px2 :
  camera (self st) = Some cam -> isOpened cam = true ->
  env_read env (frames_read (world st)) = Some px1 ->
  env_read env (S (frames_read (world st))) = Some px2 ->
  Qfloor (env_time env (ticks (world st))) = Qfloor (env_time env (S (ticks (world st)))) ->
  let stem := picture_stem l (Calendar.strftime
                                (local_seconds env (env_time env (ticks (world st))))) c in
  let path := picture_path env dir l c (env_time env (ticks (world st))) in
  env_writable env path = true ->
  exists st2,
    (take_picture env (Some dir) l c m ;; take_picture env (Some dir) l c m) st = (Ret tt, st2)
    /\ files (world st2)
       = fs_write path (mkFile (picture_frame m (device_index (self st)) stem px2) 95)
           (files (world st)).
Proof.
  intros Hc Ho Hr1 Hr2 Hs stem path Hw.
  unfold bind. rewrite (take_picture_written_exact dir l c m st cam px1 Hc Ho Hr1 Hw).
  match goal with |- context [take_picture _ _ _ _ _ ?s] => set (st1 := s) end.
  assert (Hp : picture_path env dir l c (env_time env (ticks (world st1))) = path)
    by (symmetry; apply picture_path_same_second; exact Hs).
  assert (Hw1 : env_writable env (picture_path env dir l c (env_time env (ticks (world st1))))
                = true) by (rewrite Hp; exact Hw).
  rewrite (take_picture_written_exact dir l c m st1 cam px2 Hc Ho Hr2 Hw1).
  eexists; split; [reflexivity|]. cbn [world files self ticks st1].
  unfold local_seconds. rewrite <- Hs. fold (local_seconds env (env_time env (ticks (world st)))).
  fold stem. cbn [world ticks st1] in Hp. rewrite Hp. apply fs_write_write.
Qed.

(** X5: when the picture cannot be written ([cv2.imwrite] answers
    [False]), [take_picture] goes on as after a success: it logs the line
    [Image saved as: ...] all the same, no file is there, and it returns
    normally. *)
Theorem capture_unwritable_logs_saved st cam dir l c m px :
  camera (self st) = Some cam -> isOpened cam = true ->
  env_read env (frames_read (world st)) = Some px ->
  let stem := picture_stem l (Calendar.strftime
                                (local_seconds env (env_time env (ticks (world st))))) c in
  let path := picture_path env dir l c (env_time env (ticks (world st))) in
  env_writable env path = false ->
  exists st' d,
    take_picture env (Some dir) l c m st = (Ret tt, st')
    /\ files (world st') = files (world st)
    /\ trace (world st')
       = d ++ EvLog INFO ("Image saved as: " ++ stem ++ ".jpg")%string
           :: EvImwrite path (mkFrame px []) (Some 95) false
           :: EvRead true :: trace (world st).
Proof.
  intros Hc Ho Hr stem path Hw.
  assert (G : wp (take_picture env (Some dir) l c m)
                (fun r st' =>
                   r = Ret tt
                   /\ (files (world st') = files (world st)
                       /\ exists d,
                            trace (world st')
                            = d ++ EvLog INFO ("Image saved as: " ++ stem ++ ".jpg")%string
                                :: EvImwrite path (mkFrame px []) (Some 95) false
                                :: EvRead true :: trace (world st))) st).
  { apply (wp_eq _ _ _ _ (take_picture_open_eq env _ _ _ _ _ _ Hc Ho)).
    subst stem path. unfold picture_path in *.
    destruct st as [[idx res rate cam'] [a r p t fs tr]], cam as [o ps].
    cbn in Hc, Ho, Hr, Hw. subst o cam'.
    unfold take_picture_try; wp_run.
    all: split; [reflexivity|]; split; [reflexivity|]; eexists; trace_delta. }
  apply wp_elim_ret in G. destruct G as (st' & E & F & d & T). eauto.
Qed.

End MoreOfTheClass.

Lemma capture_without_directory_witness :
  take_picture Bench.working None "test" "1" true Bench.opened
  = (Ret tt,
     mkSt (self Bench.opened)
       (mkWorld 0 1 0 1 []
          [EvLog ERROR ("Error capturing and saving image: "
                        ++ "expected str, bytes or os.PathLike object, not NoneType")%string;
           EvRead true])).
Proof.
  apply (capture_without_directory Bench.working Bench.opened Bench.opened_cam
           "test" "1" true 0%nat); reflexivity.
Defined.

Lemma capture_file_content_witness :
  let st' := snd (take_picture Bench.working (Some "out") "test" "1" true Bench.opened) in
  fs_read "out/test_19700101_000000_1.jpg" (files (world st'))
  = Some (mkFile (mkFrame 0 [mkOverlay "Camera ID: 0" (25, 40);
                             mkOverlay "test_19700101_000000_1" (25, 80)]) 95)
  /\ forall p, p <> "out/test_19700101_000000_1.jpg"%string ->
       fs_read p (files (world st')) = fs_read p (files (world Bench.opened)).
Proof.
  apply (capture_file_content Bench.working Bench.opened Bench.opened_cam
           "out" "test" "1" true 0%nat); reflexivity.
Defined.

Lemma same_second_overwrites_witness :
  exists st2,
    (take_picture Trial.burst (Some "out") "test" "1" false ;;
     take_picture Trial.burst (Some "out") "test" "1" false) Bench.opened = (Ret tt, st2)
    /\ files (world st2)
       = fs_write "out/test_19700101_000000_1.jpg" (mkFile (mkFrame 1 []) 95)
           (files (world Bench.opened)).
Proof.
  apply (same_second_overwrites Trial.burst Bench.opened Bench.opened_cam
           "out" "test" "1" false 0%nat 1%nat); reflexivity.
Defined.

Lemma capture_unwritable_logs_saved_witness :
  exists st' d,
    take_picture Trial.read_only (Some "out") "test" "1" false Bench.opened = (Ret tt, st')
    /\ files (world st') = files (world Bench.opened)
    /\ trace (world st')
       = d ++ EvLog INFO "Image saved as: test_19700101_000000_1.jpg"
           :: EvImwrite "out/test_19700101_000000_1.jpg" (mkFrame 0 []) (Some 95) false
           :: EvRead true :: trace (world Bench.opened).
Proof.
  apply (capture_unwritable_logs_saved Trial.read_only Bench.opened Bench.opened_cam
           "out" "test" "1" false 0%nat); reflexivity.
Defined.

Section MoreOfTheClass2.

Variable env : Env.

(** X6: [add_pic_mark] on a path where no picture is: [cv2.imread] gives
    [None], the two calls of [cv2.putText] return, and [cv2.imwrite], given
    no image, raises its [cv2.error]; no file is written, and the session
    and the world are left as they were. *)
Theorem add_pic_mark_missing_file st path text :
  fs_read path (files (world st)) = None ->
  add_pic_mark env path text st = (Raise (Py.CvError (env_empty_image env)), st).
Proof.
  intros H.
  unfold add_pic_mark, bind, imread, imwrite, get_world, get_self, putText_on, raise, ret.
  cbn. rewrite H. cbn. destruct st as [s w]. reflexivity.
Qed.

(** X7: [add_pic_mark] on a picture that is there and can be written
    again draws the camera and the text after what the picture already
    carries, keeps its pixels, and writes it back in one call of
    [cv2.imwrite] that passes no quality, so that the picture is saved with
    the default quality of the library; the other paths and the session are
    left alone. *)
Theorem add_pic_mark_rewrites st path text f :
  fs_read path (files (world st)) = Some f ->
  env_writable env path = true ->
  let marked :=
    mkFrame (fr_pixels (file_frame f))
      (fr_overlays (file_frame f)
       ++ [mkOverlay ("Camera ID: " ++ Py.str_int (device_index (self st)))%string (25, 40);
           mkOverlay text (25, 80)]) in
  exists st',
    add_pic_mark env path text st = (Ret tt, st')
    /\ self st' = self st
    /\ trace (world st') = EvImwrite path marked None true :: trace (world st)
    /\ fs_read path (files (world st'))
       = Some (mkFile marked IMWRITE_JPEG_QUALITY_default)
    /\ forall p, p <> path -> fs_read p (files (world st')) = fs_read p (files (world st)).
Proof.
  intros Hf Hw marked. apply wp_elim_ret.
  destruct st as [s [a r p t fs tr]]. cbn [world files self trace] in *.
  assert (Em : putText (putText (file_frame f)
                          ("Camera ID: " ++ Py.str_int (device_index s))%string (25, 40))
                 text (25, 80) = marked).
  { unfold marked, putText. cbn [fr_pixels fr_overlays]. now rewrite <- app_assoc. }
  unfold add_pic_mark; wp_run.
  all: rewrite ?Hf in *; cbn [option_map] in *; try discriminate.
  all: match goal with H : Some _ = Some _ |- _ => rewrite Em in H; injection H as <- end.
  split; [reflexivity|]. split; [reflexivity|]. split; [reflexivity|]. split.
  - now rewrite fs_read_write.
  - intros q N. now apply fs_read_other.
Qed.

(** X8: when the requested values pass as floats and no acquisition
    raises, [open_camera] makes its calls in this order: the construction;
    the retry with [open], made when the construction left the device
    unopened and only then; the sleep of one second; the four settings,
    width, height, rate and autofocus, with the requested values as floats;
    and the log line. *)
Theorem open_camera_call_order st :
  requests_convert (self st) ->
  (forall msg, env_acquire env (acquired (world st)) <> AcqRaise msg) ->
  (forall msg, env_acquire env (acquired (world st)) = AcqClosed ->
               env_acquire env (S (acquired (world st))) <> AcqRaise msg) ->
  exists st' acq,
    open_camera env st = (Ret tt, st')
    /\ trace (world st')
       = EvLog INFO ("Initial Camera with configuration: index: "
                     ++ Py.str_int (device_index (self st)) ++ ", "
                     ++ "resolution: " ++ Py.str_pair (frame_resolution (self st)) ++ ", "
                     ++ "frame rate: " ++ Py.str_int (frame_rate (self st)) ++ "fps")%string
           :: EvSet CAP_PROP_AUTOFOCUS 1
           :: EvSet CAP_PROP_FPS (Py.float (frame_rate (self st)))
           :: EvSet CAP_PROP_FRAME_HEIGHT (Py.float (snd (frame_resolution (self st))))
           :: EvSet CAP_PROP_FRAME_WIDTH (Py.float (fst (frame_resolution (self st))))
           :: EvSleep 1
           :: acq ++ trace (world st)
    /\ (forall p0, env_acquire env (acquired (world st)) = AcqOpened p0 ->
          acq = [EvVideoCapture (device_index (self st))])
    /\ (env_acquire env (acquired (world st)) = AcqClosed ->
        acq = [EvOpen (device_index (self st)); EvVideoCapture (device_index (self st))]).
Proof.
  intros C N1 N2.
  assert (G : wp (open_camera env)
                (fun r st' =>
                   r = Ret tt
                   /\ exists acq,
                        trace (world st')
                        = EvLog INFO ("Initial Camera with configuration: index: "
                                      ++ Py.str_int (device_index (self st)) ++ ", "
                                      ++ "resolution: "
                                      ++ Py.str_pair (frame_resolution (self st)) ++ ", "
                                      ++ "frame rate: "
                                      ++ Py.str_int (frame_rate (self st)) ++ "fps")%string
                            :: EvSet CAP_PROP_AUTOFOCUS 1
                            :: EvSet CAP_PROP_FPS (Py.float (frame_rate (self st)))
                            :: EvSet CAP_PROP_FRAME_HEIGHT
                                 (Py.float (snd (frame_resolution (self st))))
                            :: EvSet CAP_PROP_FRAME_WIDTH
                                 (Py.float (fst (frame_resolution (self st))))
                            :: EvSleep 1
                            :: acq ++ trace (world st)
                        /\ (forall p0, env_acquire env (acquired (world st)) = AcqOpened p0 ->
                              acq = [EvVideoCapture (device_index (self st))])
                        /\ (env_acquire env (acquired (world st)) = AcqClosed ->
                            acq = [EvOpen (device_index (self st));
                                   EvVideoCapture (device_index (self st))])) st).
  { destruct st as [[idx [rw rh] rate cam] [a r p t fs tr]].
    destruct C as (Cw & Ch & Cf).
    apply float_of_int_some in Cw, Ch, Cf.
    cbn [self world acquired device_index frame_resolution frame_rate trace fst snd] in *.
    unfold open_camera; wp_run.
    all: try (exfalso; solve [ eapply N1; reflexivity | eapply N2; reflexivity ]).
    all: split; [reflexivity|].
    all: first [ exists [EvVideoCapture idx]; split; [reflexivity|];
                 split; [reflexivity | discriminate]
               | exists [EvOpen idx; EvVideoCapture idx]; split; [reflexivity|];
                 split; [discriminate | reflexivity] ]. }
  apply wp_elim_ret in G. destruct G as (st' & E & acq & T & A). eauto.
Qed.

(** A requested width that no float holds: the first setting raises in
    the conversion of its argument, nothing is set, the error is logged and
    [open_camera] returns with the device opened. *)
Example open_camera_wide_request :
  let r := open_camera Bench.working Trial.wide in
  fst r = Ret tt
  /\ trace (world (snd r))
     = [EvLog ERROR "Failed to open the camera: int too large to convert to float";
        EvSleep 1; EvVideoCapture 0]
  /\ camera (self (snd r)) = Some Bench.opened_cam.
Proof. vm_compute. repeat split. Qed.

(** X9: when the retry of the acquisition raises, the error is logged and
    swallowed; the session is left with the closed handle of the
    construction, and nothing was set and no delay taken. *)
Theorem open_camera_retry_raises st msg :
  env_acquire env (acquired (world st)) = AcqClosed ->
  env_acquire env (S (acquired (world st))) = AcqRaise msg ->
  exists st',
    open_camera env st = (Ret tt, st')
    /\ camera (self st') = Some closed_capture
    /\ trace (world st')
       = EvLog ERROR ("Failed to open the camera: " ++ msg)%string
           :: EvOpen (device_index (self st))
           :: EvVideoCapture (device_index (self st)) :: trace (world st).
Proof.
  intros H1 H2. apply wp_elim_ret.
  destruct st as [[idx res rate cam] [a r p t fs tr]].
  cbn [self world acquired device_index trace] in *.
  unfold open_camera; wp_run. repeat split.
Qed.

End MoreOfTheClass2.

Section MoreOfThePreview.

Variable env : Env.

Ltac frames_all :=
  repeat (apply Forall_cons; [cbn; auto |]); apply Forall_nil.

Lemma loop_quiet timeout start_time aw ah af fuel : forall st,
  wp (show_live_camera_loop env fuel timeout start_time aw ah af)
     (fun r st' =>
        (exists d,
           trace (world st') = d ++ trace (world st)
           /\ Forall (preview_frame_ok (device_index (self st))) d
           /\ count_ev is_set d = 0%nat
           /\ count_ev is_reopen d = 0%nat
           /\ count_ev is_VideoCapture d = 0%nat
           /\ count_ev is_imwrite d = 0%nat)
        /\ acquired (world st') = acquired (world st)
        /\ files (world st') = files (world st)
        /\ device_index (self st') = device_index (self st)
        /\ frame_resolution (self st') = frame_resolution (self st)
        /\ frame_rate (self st') = frame_rate (self st)) st.
Proof.
  induction fuel as [|fuel IH]; intros [[idx res rate cam] [a r p t fs tr]].
  - cbn [show_live_camera_loop]. apply wp_out_of_fuel.
    split; [exists []; repeat split; constructor | repeat split].
  - cbn [show_live_camera_loop]. wp_run.
    all: try (eapply wp_consequence; [apply IH|];
              intros r' st' ((d & T & F & V & I & C & W) & A & Fi & D & R & Fr); wp_simpl;
              cbn [self world device_index frame_resolution frame_rate acquired trace
                     files] in *;
              split; [| repeat split; assumption];
              eexists (d ++ [_; _; _]); rewrite T, <- app_assoc; split; [reflexivity|];
              split; [apply Forall_app; split; [exact F | frames_all] |];
              unfold count_ev in *; rewrite !filter_app, !length_app, V, I, C, W;
              repeat split).
    all: (split; [| repeat split]).
    all: eexists; split; [trace_delta|]; split; [frames_all | repeat split].
Qed.

Lemma show_live_camera_quiet fuel timeout st :
  wp (show_live_camera env fuel timeout)
     (fun r st' =>
        (exists d,
           trace (world st') = d ++ trace (world st)
           /\ Forall (preview_frame_ok (device_index (self st))) d
           /\ count_ev is_set d = 0%nat
           /\ count_ev is_reopen d = 0%nat
           /\ count_ev is_VideoCapture d = 0%nat
           /\ count_ev is_imwrite d = 0%nat)
        /\ acquired (world st') = acquired (world st)
        /\ files (world st') = files (world st)
        /\ device_index (self st') = device_index (self st)
        /\ frame_resolution (self st') = frame_resolution (self st)
        /\ frame_rate (self st') = frame_rate (self st)) st.
Proof.
  destruct st as [[idx res rate [v|]] [a r p t fs tr]].
  all: unfold show_live_camera; wp_run.
  2: { split; [exists []; repeat split; constructor | repeat split]. }
  eapply wp_consequence; [apply loop_quiet|].
  intros r' st' ((d & T & F & V & I & C & W) & A & Fi & D & R & Fr).
  cbn [self world device_index frame_resolution frame_rate acquired trace files] in *.
  destruct r' as [[]|e|]; wp_run.
  all: split; [| repeat split; assumption].
  all: rewrite T.
  1: eexists ([_; _] ++ d ++ [_]).
  2-3: eexists (d ++ [_]).
  all: rewrite <- ?app_assoc; split; [reflexivity|].
  all: split; [repeat (apply Forall_app; split); try exact F; frames_all |].
  all: unfold count_ev in *; rewrite !filter_app, !length_app, V, I, C, W; repeat split.
Qed.

(** X10: every frame a preview shows is in the window [frame] and
    carries four texts, at (25,40), (25,80), (25,120) and (25,160): the
    camera of the session first, the hint for the key last. *)
Theorem preview_frames_annotated fuel timeout st :
  exists d,
    trace (world (snd (show_live_camera env fuel timeout st))) = d ++ trace (world st)
    /\ Forall (preview_frame_ok (device_index (self st))) d.
Proof.
  destruct (show_live_camera_quiet fuel timeout st) as ((d & T & F & _) & _).
  exists d. auto.
Qed.

(** X11: a preview never acquires a device, never sets a parameter of
    it, never writes a file, and leaves the index and the requested
    resolution and rate of the session as they were, however it ends. *)
Theorem preview_touches_nothing fuel timeout st :
  let st' := snd (show_live_camera env fuel timeout st) in
  acquired (world st') = acquired (world st)
  /\ files (world st') = files (world st)
  /\ device_index (self st') = device_index (self st)
  /\ frame_resolution (self st') = frame_resolution (self st)
  /\ frame_rate (self st') = frame_rate (self st)
  /\ exists d,
       trace (world st') = d ++ trace (world st)
       /\ count_ev is_set d = 0%nat
       /\ count_ev is_reopen d = 0%nat
       /\ count_ev is_VideoCapture d = 0%nat
       /\ count_ev is_imwrite d = 0%nat.
Proof.
  intros st'. subst st'.
  destruct (show_live_camera_quiet fuel timeout st)
    as ((d & T & _ & S & O & V & W) & A & Fi & D & R & F).
  split; [exact A|]. split; [exact Fi|]. split; [exact D|]. split; [exact R|].
  split; [exact F|]. exists d. auto.
Qed.


End MoreOfThePreview.

Lemma add_pic_mark_missing_file_witness :
  add_pic_mark Bench.working "out/a.jpg" "a" Bench.opened
  = (Raise (Py.CvError Bench.empty_image), Bench.opened).
Proof.
  apply (add_pic_mark_missing_file Bench.working Bench.opened "out/a.jpg" "a"). reflexivity.
Defined.

Lemma add_pic_mark_rewrites_witness :
  exists st',
    add_pic_mark Bench.working "out/a.jpg" "a" Trial.with_picture = (Ret tt, st')
    /\ self st' = self Trial.with_picture
    /\ trace (world st')
       = [EvImwrite "out/a.jpg"
            (mkFrame 7 [mkOverlay "Camera ID: 0" (25, 40); mkOverlay "a" (25, 80)])
            None true]
    /\ fs_read "out/a.jpg" (files (world st'))
       = Some (mkFile (mkFrame 7 [mkOverlay "Camera ID: 0" (25, 40); mkOverlay "a" (25, 80)])
                 IMWRITE_JPEG_QUALITY_default)
    /\ forall p, p <> "out/a.jpg"%string ->
         fs_read p (files (world st')) = fs_read p (files (world Trial.with_picture)).
Proof.
  apply (add_pic_mark_rewrites Bench.working Trial.with_picture "out/a.jpg" "a"
           (mkFile (mkFrame 7 []) 80)); reflexivity.
Defined.

Lemma open_camera_call_order_witness :
  exists st',
    open_camera Bench.busy_once Bench.fresh = (Ret tt, st')
    /\ trace (world st')
       = [EvLog INFO
            "Initial Camera with configuration: index: 0, resolution: (1280, 720), frame rate: 30fps";
          EvSet CAP_PROP_AUTOFOCUS 1;
          EvSet CAP_PROP_FPS 30;
          EvSet CAP_PROP_FRAME_HEIGHT 720;
          EvSet CAP_PROP_FRAME_WIDTH 1280;
          EvSleep 1;
          EvOpen 0;
          EvVideoCapture 0].
Proof.
  destruct (open_camera_call_order Bench.busy_once Bench.fresh)
    as (st' & acq & E & T & _ & A).
  - vm_compute. repeat split; discriminate.
  - intros msg. discriminate.
  - intros msg _. discriminate.
  - exists st'. split; [exact E|]. rewrite T, (A eq_refl). vm_compute. reflexivity.
Defined.

Lemma open_camera_retry_raises_witness :
  exists st',
    open_camera Trial.retry_raises Bench.fresh = (Ret tt, st')
    /\ camera (self st') = Some closed_capture
    /\ trace (world st')
       = EvLog ERROR "Failed to open the camera: device busy"
           :: EvOpen 0 :: EvVideoCapture 0 :: trace (world Bench.fresh).
Proof.
  apply (open_camera_retry_raises Trial.retry_raises Bench.fresh "device busy"); reflexivity.
Defined.


Section OpenAgain.

Variable env : Env.

(** X14: unless the construction raises, the run of [open_camera] is the
    same whatever handle the session holds, an open one, a released one or
    none: the same result, the same calls on the device, the same final
    session.  The old handle is replaced without being read. *)
Theorem open_camera_forgets_handle idx res rate cam1 cam2 w :
  (forall msg, env_acquire env (acquired w) <> AcqRaise msg) ->
  open_camera env (mkSt (mkSession idx res rate cam1) w)
  = open_camera env (mkSt (mkSession idx res rate cam2) w).
Proof.
  intros N.
  enough (G : forall cam,
             wp (open_camera env)
               (fun r st' => (r, st') = open_camera env (mkSt (mkSession idx res rate None) w))
               (mkSt (mkSession idx res rate cam) w)).
  { pose proof (G cam1) as G1. pose proof (G cam2) as G2. unfold wp in G1, G2.
    rewrite <- surjective_pairing in G1, G2. congruence. }
  intros cam. destruct w as [a r p t fs tr]. cbn [acquired] in N.
  unfold open_camera at 1; wp_run.
  all: try (exfalso; eapply N; reflexivity).
  all: unfold open_camera, try_except, bind, get_self, VideoCapture_new, get_world, emit,
         with_world, set_camera, the_camera, camera_open, time_sleep, camera_set, log, ret,
         raise; cbn.
  all: repeat first [ rewrite float_of_int_one; cbn
                    | match goal with H : _ = _ |- _ => rewrite H; cbn end ].
  all: reflexivity.
Qed.

End OpenAgain.

Lemma open_camera_forgets_handle_witness :
  open_camera Bench.working
    (mkSt (mkSession 0 (1280, 720) 30 (Some Bench.opened_cam)) Bench.fresh_world)
  = open_camera Bench.working (mkSt (mkSession 0 (1280, 720) 30 None) Bench.fresh_world).
Proof.
  apply (open_camera_forgets_handle Bench.working 0 (1280, 720) 30
           (Some Bench.opened_cam) None Bench.fresh_world).
  intros msg. cbn. discriminate.
Defined.

(** * The functions of the module *)

Import Host.

Section HostRules.

Context {A B : Type}.

Lemma hwp_ret (a : A) Q h : Q (HRet a) h -> hwp (hret a) Q h.
Proof. exact (fun H => H). Qed.

Lemma hwp_raise e (Q : hresult A -> State -> Prop) h : Q (HRaise e) h -> hwp (hraise e) Q h.
Proof. exact (fun H => H). Qed.

Lemma hwp_bind (m : H A) (k : A -> H B) Q h :
  hwp m (fun r h' =>
           match r with
           | HRet a => hwp (k a) Q h'
           | HRaise e => Q (HRaise e) h'
           | HOutOfFuel => Q HOutOfFuel h'
           end) h ->
  hwp (hbind m k) Q h.
Proof. unfold hwp, hbind. destruct (m h) as [[a|e|] h']; exact (fun H => H). Qed.

Lemma hwp_try_except (body : H A) handler Q h :
  hwp body (fun r h' =>
              match r with
              | HRaise e =>
                  if Host.is_Exception e then hwp (handler e) Q h' else Q (HRaise e) h'
              | _ => Q r h'
              end) h ->
  hwp (htry_except body handler) Q h.
Proof.
  unfold hwp, htry_except. destruct (body h) as [[a|e|] h']; cbn; try exact (fun H => H).
  destruct (Host.is_Exception e); exact (fun H => H).
Qed.

Lemma hwp_elim (m : H A) Q h : hwp m Q h -> exists r h', m h = (r, h') /\ Q r h'.
Proof. unfold hwp. destruct (m h) as [r h']. eauto. Qed.


End HostRules.

Lemma hwp_get_state Q h : Q (HRet h) h -> hwp get_state Q h.
Proof. exact (fun H => H). Qed.

Lemma hwp_set_dirs ds Q h :
  Q (HRet tt) (mkState ds (h_typed h) (h_prompts h) (h_level h) (h_handlers h)
                 (h_object h) (h_world h)) ->
  hwp (set_dirs ds) Q h.
Proof. exact (fun H => H). Qed.

Lemma hwp_set_world w Q h :
  Q (HRet tt) (mkState (h_dirs h) (h_typed h) (h_prompts h) (h_level h) (h_handlers h)
                 (h_object h) w) ->
  hwp (set_world w) Q h.
Proof. exact (fun H => H). Qed.

Lemma hwp_set_object o Q h :
  Q (HRet tt) (mkState (h_dirs h) (h_typed h) (h_prompts h) (h_level h) (h_handlers h)
                 o (h_world h)) ->
  hwp (set_object o) Q h.
Proof. exact (fun H => H). Qed.

Ltac hwp_simpl :=
  cbn beta iota delta [h_dirs h_typed h_prompts h_level h_handlers h_object h_world
    acquired frames_read polled ticks files trace tick_ticks
    self world device_index frame_resolution frame_rate camera
    negb fst snd Host.is_Exception Py.is_Exception].

(** One step of a run at the level of the script. *)
Ltac hwp_step :=
  lazymatch goal with
  | |- hwp (hbind _ _) _ _ => apply hwp_bind
  | |- hwp (hret _) _ _ => apply hwp_ret
  | |- hwp (hraise _) _ _ => apply hwp_raise
  | |- hwp (htry_except _ _) _ _ => apply hwp_try_except
  | |- hwp get_state _ _ => apply hwp_get_state
  | |- hwp (set_dirs _) _ _ => apply hwp_set_dirs
  | |- hwp (set_world _) _ _ => apply hwp_set_world
  | |- hwp (set_object _) _ _ => apply hwp_set_object
  | |- hwp (fun _ => (_, _)) _ _ => unfold hwp at 1; cbn [fst snd]
  | |- hwp (match ?x with _ => _ end) _ _ =>
      first [ is_var x; destruct x
            | match goal with H : x = _ |- _ => rewrite H end
            | destruct x eqn:? ]
  | |- hwp ?m _ _ =>
      let h := head_of m in
      lazymatch h with
      | @log_cameras => fail
      | @create_directory => fail
      | @show_and_select_camera => fail
      | @method => fail
      | @makedirs => fail
      | _ => unfold h
      end
  end; hwp_simpl.

Ltac hwp_run := hwp_simpl; repeat hwp_step.

Section Directories.

Local Open Scope string_scope.
Local Open Scope Z_scope.
Local Arguments String.append : simpl nomatch.

Lemma mem_true p ps : mem p ps = true <-> In p ps.
Proof.
  unfold mem. rewrite existsb_exists. split.
  - intros (q & I & E). apply String.eqb_eq in E. now subst.
  - intros I. exists p. split; [exact I | apply String.eqb_refl].
Qed.

Lemma mem_false p ps : mem p ps = false <-> ~ In p ps.
Proof.
  rewrite <- mem_true. destruct (mem p ps); split; intros; congruence.
Qed.

Lemma append_nil_r (s : string) : s ++ EmptyString = s.
Proof.
  induction s as [|c s IH]; cbn; [reflexivity | now rewrite IH].
Qed.

(** The directories above a path are proper prefixes of it. *)
Lemma parents_from_length before rest q :
  In q (parents_from before rest) ->
  (String.length before <= String.length q < String.length before + String.length rest)%nat.
Proof.
  revert before. induction rest as [|c rest IH]; intros before I; [destruct I|].
  cbn [parents_from] in I. apply in_app_or in I as [I | I].
  - destruct (_ && _ && _); [|destruct I]. destruct I as [<- | []]. cbn. lia.
  - apply IH in I. rewrite length_append in I. cbn in *. lia.
Qed.

Lemma parents_shorter p q : In q (parents p) -> (String.length q < String.length p)%nat.
Proof. intros I. apply parents_from_length in I. cbn in I. lia. Qed.

Lemma parents_from_no_sep before rest : no_sep rest = true -> parents_from before rest = [].
Proof.
  revert before. induction rest as [|c rest IH]; intros before N; [reflexivity|].
  cbn in N. apply andb_true_iff in N as [Nc N].
  cbn [parents_from]. apply negb_true_iff in Nc. rewrite Nc. cbn. now apply IH.
Qed.

Lemma parents_from_app before r1 r2 :
  parents_from before (r1 ++ r2)
  = (parents_from before r1 ++ parents_from (before ++ r1) r2)%list.
Proof.
  revert before. induction r1 as [|c r1 IH]; intros before; cbn [String.append parents_from].
  - now rewrite append_nil_r.
  - rewrite IH, <- app_assoc. rewrite append_assoc. reflexivity.
Qed.

(** Above a name put under a directory there are the directory and what is
    above it, when the name has no separator. *)
Lemma parents_under_dir d n q :
  no_sep n = true -> In q (parents (under_dir d n)) -> q = d \/ In q (parents d).
Proof.
  intros N. unfold under_dir, parents.
  destruct ((String.length d =? 0)%nat || Py.endswith_sep d).
  - rewrite parents_from_app. cbn [String.append]. rewrite (parents_from_no_sep _ n N).
    rewrite app_nil_r. auto.
  - rewrite parents_from_app. intros I. apply in_app_or in I as [I | I]; [auto|].
    cbn [String.append parents_from] in I. rewrite (parents_from_no_sep _ n N) in I.
    rewrite app_nil_r in I. cbn [String.append] in I.
    destruct (_ && _ && _); [destruct I as [<- | []]; auto | destruct I].
Qed.

End Directories.

Section Stamps.

Local Open Scope string_scope.
Local Open Scope Z_scope.
Local Arguments String.append : simpl nomatch.

Lemma numerals_no_sep s : all_numerals s = true -> no_sep s = true.
Proof.
  induction s as [|c s IH]; cbn; [reflexivity|]. intros H.
  apply andb_true_iff in H as [Hc H]. rewrite (IH H), andb_true_r.
  apply negb_true_iff. destruct (Ascii.eqb_spec c "/"); [subst c; discriminate | reflexivity].
Qed.

Lemma no_sep_app a b : no_sep (a ++ b) = no_sep a && no_sep b.
Proof. induction a as [|c a IH]; cbn; [reflexivity | now rewrite IH, andb_assoc]. Qed.

Lemma fmt_02d_numerals n : all_numerals (Py.fmt_02d n) = true.
Proof.
  unfold Py.fmt_02d. destruct (_ && _); [cbn|]; apply str_int_numerals.
Qed.

Lemma strftime_no_sep t : no_sep (Calendar.strftime t) = true.
Proof.
  unfold Calendar.strftime. cbv zeta.
  rewrite !no_sep_app.
  repeat match goal with
         | |- context [no_sep (Py.fmt_02d ?x)] =>
             rewrite (numerals_no_sep (Py.fmt_02d x)) by apply fmt_02d_numerals
         | |- context [no_sep (Py.str_int ?x)] =>
             rewrite (numerals_no_sep (Py.str_int x)) by apply str_int_numerals
         end.
  reflexivity.
Qed.

Lemma strftime_nonempty t : (0 < String.length (Calendar.strftime t))%nat.
Proof.
  unfold Calendar.strftime. cbv zeta. rewrite !length_append. cbn. lia.
Qed.

Lemma no_sep_not_rooted s : no_sep s = true -> Py.startswith_sep s = false.
Proof.
  destruct s as [|c s]; [reflexivity|]. cbn. intros H.
  apply andb_true_iff in H as [H _]. now apply negb_true_iff in H.
Qed.

Lemma under_dir_length d n :
  (String.length d + String.length n <= String.length (under_dir d n))%nat.
Proof.
  unfold under_dir. destruct (_ || _); rewrite !length_append; cbn; lia.
Qed.

Lemma under_dir_parents d n q : In q (parents d) -> In q (parents (under_dir d n)).
Proof.
  intros I. unfold under_dir, parents.
  destruct (_ || _); rewrite parents_from_app; apply in_or_app; auto.
Qed.


End Stamps.

Section CreateDirectory.

Variable env : Env.
Variable ans : Answers.

Lemma run_dir_under t :
  run_dir env ans t
  = under_dir (pictures_dir ans) (Calendar.strftime (local_seconds env t)).
Proof.
  unfold run_dir. apply path_join_under, no_sep_not_rooted, strftime_no_sep.
Qed.

Lemma run_dir_longer t :
  (String.length (pictures_dir ans) < String.length (run_dir env ans t))%nat.
Proof.
  rewrite run_dir_under.
  pose proof (under_dir_length (pictures_dir ans) (Calendar.strftime (local_seconds env t))).
  pose proof (strftime_nonempty (local_seconds env t)). lia.
Qed.

Lemma clear_of_files_find w p :
  clear_of_files w p = true ->
  find (is_file w) (parents p) = None /\ is_file w p = false.
Proof.
  unfold clear_of_files. intros H. apply andb_true_iff in H as [H1 H2].
  apply negb_true_iff in H1. split; [|exact H1].
  induction (parents p) as [|q qs IH]; [reflexivity|].
  cbn in H2 |- *. apply andb_true_iff in H2 as [Hq H2]. apply negb_true_iff in Hq.
  rewrite Hq. now apply IH.
Qed.

Lemma makedirs_new p h :
  clear_of_files (h_world h) p = true ->
  mem p (h_dirs h) = false ->
  makedirs p h
  = (HRet tt,
     mkState (p :: filter (fun q => negb (mem q (h_dirs h))) (parents p) ++ h_dirs h)
       (h_typed h) (h_prompts h) (h_level h) (h_handlers h) (h_object h) (h_world h)).
Proof.
  intros C M. apply clear_of_files_find in C as [F I].
  unfold makedirs, hbind, get_state. cbn. now rewrite F, M, I.
Qed.

Lemma makedirs_there p h :
  clear_of_files (h_world h) p = true ->
  mem p (h_dirs h) = true ->
  makedirs p h = (HRaise (FileExistsError p), h).
Proof.
  intros C M. apply clear_of_files_find in C as [F I].
  unfold makedirs, hbind, get_state. cbn. now rewrite F, M.
Qed.

(** What is there after a directory was made. *)
Lemma made_dirs_mem p ds q :
  In q (p :: filter (fun q => negb (mem q ds)) (parents p) ++ ds)
  <-> q = p \/ In q (parents p) \/ In q ds.
Proof.
  cbn [In]. rewrite in_app_iff, filter_In. split.
  - intros [E | [[I _] | I]]; auto.
  - intros [E | [I | I]]; auto.
    destruct (mem q ds) eqn:M.
    + apply mem_true in M. auto.
    + right. left. split; [exact I | reflexivity].
Qed.

(** The run of [create_directory] when no file is in the way and the
    directory of the run is not there. *)
Lemma create_directory_wp h :
  let main := pictures_dir ans in
  let sub := run_dir env ans (env_time env (ticks (h_world h))) in
  clear_of_files (h_world h) main = true ->
  clear_of_files (h_world h) sub = true ->
  mem sub (h_dirs h) = false ->
  hwp (create_directory env ans)
    (fun r h' =>
       r = HRet sub
       /\ h_world h' = tick_ticks (h_world h)
       /\ h_typed h' = h_typed h /\ h_prompts h' = h_prompts h
       /\ h_level h' = h_level h /\ h_handlers h' = h_handlers h
       /\ h_object h' = h_object h
       /\ (forall q, In q (h_dirs h') <->
                     q = sub \/ q = main \/ In q (parents main) \/ In q (h_dirs h))) h.
Proof.
  intros main sub Cm Cs Ms.
  assert (Lsub : forall q, In q (parents sub) -> q = main \/ In q (parents main)).
  { intros q. subst sub. rewrite run_dir_under.
    apply parents_under_dir, strftime_no_sep. }
  assert (Lmain : forall q, In q (parents main) -> In q (parents sub)).
  { intros q. subst sub. rewrite run_dir_under. apply under_dir_parents. }
  assert (Nmain : sub <> main).
  { intros E. pose proof (run_dir_longer (env_time env (ticks (h_world h)))) as L.
    fold sub main in L. rewrite E in L. lia. }
  assert (Npar : ~ In sub (parents main)).
  { intros I. apply parents_shorter in I.
    pose proof (run_dir_longer (env_time env (ticks (h_world h)))) as L.
    fold sub main in L. lia. }
  destruct (clear_of_files_find _ _ Cm) as [_ Im].
  destruct h as [ds ty pr lv hd ob w].
  cbn [h_world h_dirs h_typed h_prompts h_level h_handlers h_object] in *.
  unfold hwp, create_directory, path_exists, hstrftime, hbind, get_state, hret, set_world.
  cbn [fst snd h_dirs h_world h_typed h_prompts h_level h_handlers h_object].
  change (Py.path_join (he_cwd ans) "Pictures") with main. rewrite Im, orb_false_r.
  destruct (mem main ds) eqn:Mm; cbn [negb].
  - change (Py.path_join main (Calendar.strftime (local_seconds env (env_time env (ticks w))))) with sub.
    rewrite makedirs_new by assumption.
    cbn [fst snd h_dirs h_world h_typed h_prompts h_level h_handlers h_object].
    repeat split; try reflexivity.
    + intros I. apply made_dirs_mem in I as [E | [I | I]]; auto.
      apply Lsub in I as [E | I]; auto.
    + intros [E | [E | [I | I]]]; apply made_dirs_mem; auto.
      subst q. apply mem_true in Mm. auto.
  - rewrite makedirs_new by assumption.
    cbn [fst snd h_dirs h_world h_typed h_prompts h_level h_handlers h_object].
    change (Py.path_join main (Calendar.strftime (local_seconds env (env_time env (ticks w))))) with sub.
    rewrite makedirs_new.
    2: exact Cs.
    2: { apply mem_false. cbn [h_dirs]. intros I.
         apply made_dirs_mem in I as [E | [I | I]]; [auto | auto |].
         apply mem_false in Ms. auto. }
    cbn [fst snd h_dirs h_world h_typed h_prompts h_level h_handlers h_object].
    repeat split; try reflexivity.
    + intros I. apply made_dirs_mem in I as [E | [I | I]]; auto.
      * apply Lsub in I as [E | I]; auto.
      * apply made_dirs_mem in I as [E | [I | I]]; auto.
    + intros [E | [E | [I | I]]]; apply made_dirs_mem; auto.
      * right. right. apply made_dirs_mem. auto.
      * right. right. apply made_dirs_mem. auto.
Qed.

End CreateDirectory.

Section CreateDirectoryFacts.

Variable env : Env.
Variable ans : Answers.

Lemma clear_of_files_eq w w' p :
  files w' = files w -> clear_of_files w' p = clear_of_files w p.
Proof. unfold clear_of_files, is_file. now intros ->. Qed.

(** The run of [create_directory] when both directories are there. *)
Lemma create_directory_there h :
  let main := pictures_dir ans in
  let sub := run_dir env ans (env_time env (ticks (h_world h))) in
  clear_of_files (h_world h) main = true ->
  clear_of_files (h_world h) sub = true ->
  mem main (h_dirs h) = true ->
  mem sub (h_dirs h) = true ->
  create_directory env ans h
  = (HRaise (FileExistsError sub),
     mkState (h_dirs h) (h_typed h) (h_prompts h) (h_level h) (h_handlers h)
       (h_object h) (tick_ticks (h_world h))).
Proof.
  intros main sub Cm Cs Mm Ms.
  destruct (clear_of_files_find _ _ Cm) as [_ Im].
  destruct h as [ds ty pr lv hd ob w].
  cbn [h_world h_dirs h_typed h_prompts h_level h_handlers h_object] in *.
  unfold create_directory, path_exists, hstrftime, hbind, get_state, hret, set_world.
  cbn [fst snd h_dirs h_world h_typed h_prompts h_level h_handlers h_object].
  change (Py.path_join (he_cwd ans) "Pictures") with main. rewrite Im, Mm.
  cbn [negb orb].
  change (Py.path_join main (Calendar.strftime (local_seconds env (env_time env (ticks w))))) with sub.
  rewrite makedirs_there by assumption. reflexivity.
Qed.


(** X16: A second call of [create_directory] in the same second of the
    local clock raises [FileExistsError] for the directory the first call
    made, and makes no directory. *)
Theorem create_directory_same_second h :
  let t1 := env_time env (ticks (h_world h)) in
  let t2 := env_time env (S (ticks (h_world h))) in
  let sub := run_dir env ans t1 in
  clear_of_files (h_world h) (pictures_dir ans) = true ->
  clear_of_files (h_world h) sub = true ->
  mem sub (h_dirs h) = false ->
  local_seconds env t2 = local_seconds env t1 ->
  exists h1 h2,
    create_directory env ans h = (HRet sub, h1)
    /\ create_directory env ans h1 = (HRaise (FileExistsError sub), h2)
    /\ h_dirs h2 = h_dirs h1.
Proof.
  intros t1 t2 sub Cm Cs Ms Et.
  pose proof (create_directory_wp env ans h Cm Cs Ms) as W. cbv zeta in W.
  unfold hwp in W. destruct (create_directory env ans h) as [r h1].
  cbn [fst snd] in W. destruct W as (-> & Hw & _ & _ & _ & _ & _ & Hd).
  fold t1 in Hd. fold sub in Hd.
  assert (E2 : run_dir env ans (env_time env (ticks (h_world h1))) = sub).
  { rewrite Hw. cbn [ticks tick_ticks]. unfold sub, run_dir. fold t1 t2. now rewrite Et. }
  exists h1, (mkState (h_dirs h1) (h_typed h1) (h_prompts h1) (h_level h1) (h_handlers h1)
                (h_object h1) (tick_ticks (h_world h1))).
  split; [reflexivity|].
  split; [|reflexivity].
  rewrite <- E2. apply create_directory_there.
  - rewrite <- Cm. apply clear_of_files_eq. now rewrite Hw.
  - rewrite E2, <- Cs. apply clear_of_files_eq. now rewrite Hw.
  - apply mem_true, Hd. auto.
  - rewrite E2. apply mem_true, Hd. auto.
Qed.


End CreateDirectoryFacts.


Lemma create_directory_same_second_witness :
  exists h1 h2,
    create_directory Trial.burst (Desk.two_cameras "0") Desk.start
    = (HRet "/home/me/Pictures/19700101_000000"%string, h1)
    /\ create_directory Trial.burst (Desk.two_cameras "0") h1
       = (HRaise (FileExistsError "/home/me/Pictures/19700101_000000"), h2).
Proof.
  destruct (create_directory_same_second Trial.burst (Desk.two_cameras "0") Desk.start)
    as (h1 & h2 & E1 & E2 & _); [reflexivity | reflexivity | reflexivity | reflexivity |].
  exists h1, h2. split; [exact E1 | exact E2].
Defined.


(** At the end of daylight saving time, a run started an hour after
    another finds the directory of that one in its way. *)
Example create_directory_fall_back :
  let first := create_directory Trial.fall_back (Desk.two_cameras "0") Desk.start in
  fst first = HRet "/home/me/Pictures/20241103_013000"%string
  /\ fst (create_directory Trial.fall_back (Desk.two_cameras "0") (snd first))
     = HRaise (FileExistsError "/home/me/Pictures/20241103_013000").
Proof. vm_compute. split; reflexivity. Qed.

Section Select.

Variable ans : Answers.

Local Open Scope string_scope.
Local Open Scope Z_scope.
Local Open Scope list_scope.

Lemma logged_nil h : logged [] h = h.
Proof. destruct h as [ds ty pr lv hd ob [a f p t fs tr]]. reflexivity. Qed.

Lemma logged_logged a b h : logged b (logged a h) = logged (a ++ b) h.
Proof.
  unfold logged. cbn [h_world h_dirs h_typed h_prompts h_level h_handlers h_object
                      acquired frames_read polled ticks files trace].
  now rewrite rev_app_distr, <- app_assoc.
Qed.

Lemma hlog_run l msg h : hlog l msg h = (HRet tt, logged [EvLog l msg] h).
Proof. reflexivity. Qed.

Lemma log_cameras_run cams h :
  log_cameras cams h = (HRet tt, logged (map camera_line cams) h).
Proof.
  revert h. induction cams as [|[id dev] cams IH]; intros h.
  - cbn [log_cameras map]. now rewrite logged_nil.
  - cbn [log_cameras map]. unfold hbind at 1. rewrite hlog_run, IH, logged_logged.
    reflexivity.
Qed.

Lemma lookup_enumerate_from {A} (l : list A) b k :
  b <= k ->
  lookup k (enumerate_from b l) = nth_error l (Z.to_nat (k - b)).
Proof.
  revert b. induction l as [|x l IH]; intros b Hb; cbn [enumerate_from lookup].
  - now destruct (Z.to_nat (k - b)).
  - destruct (Z.eqb_spec b k) as [->|Ne].
    + now rewrite Z.sub_diag.
    + rewrite IH by lia. replace (Z.to_nat (k - b)) with (S (Z.to_nat (k - (b + 1)))) by lia.
      reflexivity.
Qed.

Lemma lookup_enumerate {A} (l : list A) k :
  0 <= k -> lookup k (enumerate l) = nth_error l (Z.to_nat k).
Proof.
  intros Hk. unfold enumerate. rewrite lookup_enumerate_from by lia.
  now rewrite Z.sub_0_r.
Qed.

Lemma enumerate_from_length {A} (l : list A) b : List.length (enumerate_from b l) = List.length l.
Proof. revert b. induction l as [|x l IH]; intros b; cbn; [reflexivity | now rewrite IH]. Qed.

Lemma enumerate_length {A} (l : list A) : List.length (enumerate l) = List.length l.
Proof. apply enumerate_from_length. Qed.

(** The run of [show_and_select_camera] with cameras. *)
Lemma show_and_select_camera_run names h :
  he_cameras ans = Listed names -> names <> [] ->
  let h1 := prompted (select_prompt names) (logged (select_listing names) h) in
  show_and_select_camera ans h =
  match he_input ans (h_typed h) with
  | None => (HRaise EOFError, h1)
  | Some line =>
      match he_int ans line with
      | None => (HRaise (ValueError line), h1)
      | Some i =>
          if (0 <=? i) && (i <? Z.of_nat (List.length names))
          then match nth_error names (Z.to_nat i) with
               | Some name =>
                   (HRet i,
                    logged [EvLog INFO ("You selection is: [ " ++ Py.str_int i ++ ": "
                                        ++ name ++ " ]")] h1)
               | None => (HRaise (KeyError i), h1)
               end
          else (HRaise (Of_class (Py.SystemExit 1)),
                logged [EvLog ERROR "Out of the selection range, please select again!"] h1)
      end
  end.
Proof.
  intros Hc Hn h1. unfold show_and_select_camera. rewrite Hc.
  destruct names as [|n ns]; [congruence|]. clear Hn.
  assert (Es : h1 = prompted (select_prompt (n :: ns))
                      (logged [EvLog INFO rule]
                         (logged (map camera_line (enumerate (n :: ns)))
                            (logged [EvLog INFO rule]
                               (logged [EvLog INFO
                                  ("Available Cameras as follow, Please choose one: (range: [0-"
                                   ++ Py.str_int (Z.of_nat (List.length (n :: ns)) - 1) ++ "])")] h))))).
  { unfold h1, select_listing. now rewrite !logged_logged. }
  clearbody h1. subst h1.
  destruct h as [ds ty pr lv hd ob [a f p t fs tr]].
  cbv [hbind htry_except hret hlog hemit get_state set_world input
       h_world h_dirs h_typed h_prompts h_level h_handlers h_object
       acquired frames_read polled ticks files trace].
  rewrite log_cameras_run, enumerate_length.
  cbv [logged prompted select_prompt h_world h_dirs h_typed h_prompts h_level h_handlers
       h_object acquired frames_read polled ticks files trace rev app].
  destruct (he_input ans ty) as [line|]; [|reflexivity].
  unfold int_of, hret, hraise.
  destruct (he_int ans line) as [i|]; [|reflexivity].
  destruct ((0 <=? i) && (i <? Z.of_nat (List.length (n :: ns)))) eqn:R.
  - unfold getitem. rewrite lookup_enumerate by lia.
    destruct (nth_error (n :: ns) (Z.to_nat i)) as [name|]; reflexivity.
  - reflexivity.
Qed.

End Select.

Section SelectFacts.

Variable ans : Answers.

Local Open Scope string_scope.
Local Open Scope Z_scope.
Local Open Scope list_scope.

Lemma show_and_select_camera_none h :
  he_cameras ans = Listed [] ->
  show_and_select_camera ans h
  = (HRaise (Of_class (Py.SystemExit 1)),
     logged [EvLog ERROR "Do not find any cameras."] h).
Proof.
  intros Hc. unfold show_and_select_camera. rewrite Hc.
  destruct h as [ds ty pr lv hd ob [a f p t fs tr]]. reflexivity.
Qed.

Lemma show_and_select_camera_enum_raises h msg :
  he_cameras ans = EnumRaise msg ->
  show_and_select_camera ans h
  = (HRaise (Of_class (Py.SystemExit 1)),
     logged [EvLog ERROR ("Failed to initialize cameras or list cameras: " ++ msg)] h).
Proof.
  intros Hc. unfold show_and_select_camera. rewrite Hc.
  destruct h as [ds ty pr lv hd ob [a f p t fs tr]]. reflexivity.
Qed.

Lemma in_range_nth {A} (l : list A) i :
  (0 <=? i) && (i <? Z.of_nat (List.length l)) = true ->
  exists x, nth_error l (Z.to_nat i) = Some x.
Proof.
  intros R. apply andb_true_iff in R as [R1 R2].
  apply Z.leb_le in R1. apply Z.ltb_lt in R2.
  destruct (nth_error l (Z.to_nat i)) as [x|] eqn:E; [eauto|].
  apply nth_error_None in E. lia.
Qed.

Lemma in_enumerate_from {A} (l : list A) b k x :
  nth_error l k = Some x -> In (b + Z.of_nat k, x) (enumerate_from b l).
Proof.
  revert b k. induction l as [|y l IH]; intros b [|k] E; try discriminate.
  - injection E as ->. left. f_equal. lia.
  - right. replace (b + Z.of_nat (S k)) with ((b + 1) + Z.of_nat k) by lia.
    now apply IH.
Qed.

(** X18: [show_and_select_camera] returns an index exactly when cameras
    were found, a line was typed, the line reads as an integer and that
    integer numbers one of the cameras found, counted from 0: it never
    returns a negative index or one past the last camera. *)
Theorem show_and_select_camera_returns h i :
  fst (show_and_select_camera ans h) = HRet i
  <-> exists names line,
        he_cameras ans = Listed names
        /\ he_input ans (h_typed h) = Some line
        /\ he_int ans line = Some i
        /\ 0 <= i < Z.of_nat (List.length names).
Proof.
  split.
  - destruct (he_cameras ans) as [names|msg] eqn:Hc.
    2: { rewrite (show_and_select_camera_enum_raises h msg Hc). discriminate. }
    destruct names as [|n ns].
    { rewrite (show_and_select_camera_none h Hc). discriminate. }
    rewrite (show_and_select_camera_run ans (n :: ns) h Hc ltac:(discriminate)).
    cbv zeta.
    destruct (he_input ans (h_typed h)) as [line|]; [|discriminate].
    destruct (he_int ans line) as [j|] eqn:Hj; [|discriminate].
    destruct ((0 <=? j) && (j <? Z.of_nat (List.length (n :: ns)))) eqn:R; [|discriminate].
    destruct (in_range_nth _ _ R) as [x ->]. cbn [fst]. intros E; injection E as ->.
    exists (n :: ns), line. apply andb_true_iff in R as [R1 R2].
    apply Z.leb_le in R1. apply Z.ltb_lt in R2. auto.
  - intros (names & line & Hc & Hl & Hi & R).
    assert (Hn : names <> []) by (intros ->; cbn in R; lia).
    rewrite (show_and_select_camera_run ans names h Hc Hn). cbv zeta.
    rewrite Hl, Hi.
    assert (R' : (0 <=? i) && (i <? Z.of_nat (List.length names)) = true).
    { apply andb_true_iff. split; [apply Z.leb_le | apply Z.ltb_lt]; lia. }
    rewrite R'. destruct (in_range_nth _ _ R') as [x ->]. reflexivity.
Qed.

(** X19: When [show_and_select_camera] returns an index, it has shown one
    prompt and read one line, and the log holds, after what was logged
    before: the range, a rule, every camera found with its number, a rule,
    and last the selection, with the name of the camera of that index. *)
Theorem show_and_select_camera_announces h i :
  fst (show_and_select_camera ans h) = HRet i ->
  exists names name,
    he_cameras ans = Listed names
    /\ nth_error names (Z.to_nat i) = Some name
    /\ let h' := snd (show_and_select_camera ans h) in
       h_typed h' = S (h_typed h)
       /\ h_prompts h' = select_prompt names :: h_prompts h
       /\ h_dirs h' = h_dirs h
       /\ h_object h' = h_object h
       /\ trace (h_world h')
          = EvLog INFO ("You selection is: [ " ++ Py.str_int i ++ ": " ++ name ++ " ]")
              :: rev (select_listing names) ++ trace (h_world h).
Proof.
  destruct (he_cameras ans) as [names|msg] eqn:Hc.
  2: { rewrite (show_and_select_camera_enum_raises h msg Hc). discriminate. }
  destruct names as [|n ns].
  { rewrite (show_and_select_camera_none h Hc). discriminate. }
  rewrite (show_and_select_camera_run ans (n :: ns) h Hc ltac:(discriminate)).
  cbv zeta.
  destruct (he_input ans (h_typed h)) as [line|]; [|discriminate].
  destruct (he_int ans line) as [j|] eqn:Hj; [|discriminate].
  destruct ((0 <=? j) && (j <? Z.of_nat (List.length (n :: ns)))) eqn:R; [|discriminate].
  destruct (in_range_nth _ _ R) as [x Hx]. rewrite Hx. cbn [fst snd].
  intros E; injection E as ->.
  exists (n :: ns), x. split; [reflexivity|]. split; [exact Hx|].
  destruct h as [ds ty pr lv hd ob [a f p t fs tr]]. repeat split.
Qed.

(** X20: Whatever is typed afterwards, when cameras are found
    [show_and_select_camera] logs every one of them as [number : name],
    numbered from 0 in the order found. *)
Theorem show_and_select_camera_lists_all h names k name :
  he_cameras ans = Listed names ->
  nth_error names k = Some name ->
  In (EvLog INFO (Py.str_int (Z.of_nat k) ++ " : " ++ name))
     (trace (h_world (snd (show_and_select_camera ans h)))).
Proof.
  intros Hc Hk.
  assert (Hn : names <> []) by (intros ->; destruct k; discriminate).
  assert (G : forall evs h0, In (EvLog INFO (Py.str_int (Z.of_nat k) ++ " : " ++ name))
                (trace (h_world (logged evs
                   (prompted (select_prompt names) (logged (select_listing names) h0)))))).
  { intros evs h0. cbn [logged prompted h_world trace].
    apply in_or_app. right. apply in_or_app. left. apply in_rev. rewrite rev_involutive.
    unfold select_listing. apply in_or_app. right. apply in_or_app. left.
    change (EvLog INFO (Py.str_int (Z.of_nat k) ++ " : " ++ name))
      with (camera_line (Z.of_nat k, name)).
    apply in_map. apply (in_enumerate_from names 0 k name Hk). }
  rewrite (show_and_select_camera_run ans names h Hc Hn). cbv zeta.
  destruct (he_input ans (h_typed h)) as [line|]; [|apply (G [])].
  destruct (he_int ans line) as [j|]; [|apply (G [])].
  destruct ((0 <=? j) && (j <? Z.of_nat (List.length names))); [|apply G].
  destruct (nth_error names (Z.to_nat j)); [apply G | apply (G [])].
Qed.

(** X21: When no camera is found, or the enumeration of the cameras
    raises, [show_and_select_camera] logs one error and exits with status
    1: no prompt is shown and no line is read. *)
Theorem show_and_select_camera_no_camera h :
  he_cameras ans = Listed [] \/ (exists msg, he_cameras ans = EnumRaise msg) ->
  exists msg h',
    show_and_select_camera ans h = (HRaise (Of_class (Py.SystemExit 1)), h')
    /\ trace (h_world h') = EvLog ERROR msg :: trace (h_world h)
    /\ h_prompts h' = h_prompts h
    /\ h_typed h' = h_typed h.
Proof.
  intros [Hc | [msg Hc]].
  - rewrite (show_and_select_camera_none h Hc). eexists _, _.
    split; [reflexivity|]. repeat split.
  - rewrite (show_and_select_camera_enum_raises h msg Hc). eexists _, _.
    split; [reflexivity|]. repeat split.
Qed.

(** X22: With cameras found, a line that does not make the function
    return ends it in one of three ways: no line to read raises
    [EOFError], a line that is no integer raises [ValueError], neither
    caught by the function; an integer out of the range of the cameras,
    a negative one included, is logged as an error and exits with status
    1.  The prompt was shown in each case. *)
Theorem show_and_select_camera_rejects h names :
  he_cameras ans = Listed names -> names <> [] ->
  let run := show_and_select_camera ans h in
  h_prompts (snd run) = select_prompt names :: h_prompts h
  /\ (he_input ans (h_typed h) = None -> fst run = HRaise EOFError)
  /\ (forall line, he_input ans (h_typed h) = Some line -> he_int ans line = None ->
        fst run = HRaise (ValueError line))
  /\ (forall line i, he_input ans (h_typed h) = Some line -> he_int ans line = Some i ->
        i < 0 \/ Z.of_nat (List.length names) <= i ->
        fst run = HRaise (Of_class (Py.SystemExit 1))
        /\ trace (h_world (snd run))
           = EvLog ERROR "Out of the selection range, please select again!"
               :: rev (select_listing names) ++ trace (h_world h)).
Proof.
  intros Hc Hn run. subst run.
  rewrite (show_and_select_camera_run ans names h Hc Hn). cbv zeta.
  destruct h as [ds ty pr lv hd ob [a f p t fs tr]].
  cbn [h_typed h_prompts h_world trace].
  destruct (he_input ans ty) as [line|].
  2: { split; [reflexivity|]. split; [reflexivity|]. split; intros; discriminate. }
  destruct (he_int ans line) as [j|] eqn:Hj.
  2: { split; [reflexivity|]. split; [discriminate|].
       split; [intros l E; injection E as <-; reflexivity
              | intros l i E; injection E as <-; congruence]. }
  destruct ((0 <=? j) && (j <? Z.of_nat (List.length names))) eqn:R.
  - destruct (in_range_nth _ _ R) as [x ->].
    split; [reflexivity|]. split; [discriminate|].
    split; [intros l E; injection E as <-; congruence|].
    intros l i E1 E2 O. injection E1 as <-. rewrite Hj in E2. injection E2 as <-.
    apply andb_true_iff in R as [R1 R2]. apply Z.leb_le in R1. apply Z.ltb_lt in R2. lia.
  - split; [reflexivity|]. split; [discriminate|].
    split; [intros l E; injection E as <-; congruence|].
    intros l i _ _ _. split; reflexivity.
Qed.

End SelectFacts.

Lemma show_and_select_camera_announces_witness :
  exists name,
    nth_error ["USB Cam"; "Built-in"]%string 1 = Some name
    /\ hd_error (trace (h_world (snd (show_and_select_camera (Desk.two_cameras "1")
                                        Desk.start))))
       = Some (EvLog INFO ("You selection is: [ 1: " ++ name ++ " ]")%string).
Proof.
  destruct (show_and_select_camera_announces (Desk.two_cameras "1") Desk.start 1)
    as (names & name & Hc & Hn & _ & _ & _ & _ & T); [reflexivity|].
  injection Hc as <-. exists name. split; [exact Hn|]. rewrite T. reflexivity.
Defined.

Lemma show_and_select_camera_lists_all_witness :
  In (EvLog INFO "1 : Built-in")
     (trace (h_world (snd (show_and_select_camera (Desk.two_cameras "x") Desk.start)))).
Proof.
  apply (show_and_select_camera_lists_all (Desk.two_cameras "x") Desk.start
           ["USB Cam"; "Built-in"]%string 1 "Built-in"); reflexivity.
Defined.

Lemma show_and_select_camera_no_camera_witness :
  exists msg h',
    show_and_select_camera Desk.no_camera Desk.start
    = (HRaise (Of_class (Py.SystemExit 1)), h')
    /\ trace (h_world h') = [EvLog ERROR msg].
Proof.
  destruct (show_and_select_camera_no_camera Desk.no_camera Desk.start)
    as (msg & h' & E & T & _); [left; reflexivity|].
  exists msg, h'. split; [exact E | exact T].
Defined.

Lemma show_and_select_camera_rejects_witness :
  fst (show_and_select_camera (Desk.two_cameras "-1") Desk.start)
  = HRaise (Of_class (Py.SystemExit 1))
  /\ fst (show_and_select_camera (Desk.two_cameras "2") Desk.start)
     = HRaise (Of_class (Py.SystemExit 1))
  /\ fst (show_and_select_camera (Desk.two_cameras "one") Desk.start)
     = HRaise (ValueError "one").
Proof.
  split; [|split].
  - pose proof (show_and_select_camera_rejects (Desk.two_cameras "-1") Desk.start
                  ["USB Cam"; "Built-in"]%string eq_refl ltac:(discriminate)) as R.
    cbv zeta in R. destruct R as (_ & _ & _ & R).
    apply (R "-1"%string (-1)); [reflexivity | reflexivity | left; reflexivity].
  - pose proof (show_and_select_camera_rejects (Desk.two_cameras "2") Desk.start
                  ["USB Cam"; "Built-in"]%string eq_refl ltac:(discriminate)) as R.
    cbv zeta in R. destruct R as (_ & _ & _ & R).
    apply (R "2"%string 2); [reflexivity | reflexivity | right; cbn; lia].
  - pose proof (show_and_select_camera_rejects (Desk.two_cameras "one") Desk.start
                  ["USB Cam"; "Built-in"]%string eq_refl ltac:(discriminate)) as R.
    cbv zeta in R. destruct R as (_ & _ & R & _).
    apply (R "one"%string); reflexivity.
Defined.

(** * The script *)

Section Script.

Variable env : Env.



End Script.




Section ScriptFacts.

Variable env : Env.
Variable ans : Answers.
Variable fuel : nat.


End ScriptFacts.

Section ScriptRuns.

Variable env : Env.
Variable ans : Answers.
Variable fuel : nat.



End ScriptRuns.

Section ScriptPicture.

Variable env : Env.
Variable ans : Answers.
Variable fuel : nat.


End ScriptPicture.



